(** * InvenTree company serializers: a shallow embedding

    The module [company/serializers.py] declares the JSON serializers of the
    Company application.  This development embeds its constructors (the
    toggling of optional fields) and its create / update / save hooks, and
    states the properties of the specification about them.

    Python values are embedded as [PyVal]; dictionaries are stdpp [gmap]s
    keyed by strings; code that can raise returns [option]; the calls made
    on the model layer are recorded in a trace. *)

From stdpp Require Import gmap strings list fin_maps pretty.

Local Set Warnings "-register-all".
Local Open Scope string_scope.

(** ** Python values *)

Inductive PyVal : Type :=
| PyNone
| PyBool (b : bool)
| PyInt (z : Z)
| PyStr (s : string)
| PyDateTime (t : Z)
| PyDict (d : gmap string PyVal).

Abbreviation dict := (gmap string PyVal).

(** [bool(v)]: the truth value Python gives to [v]. *)
Definition truthy (v : PyVal) : bool :=
  match v with
  | PyNone => false
  | PyBool b => b
  | PyInt z => negb (Z.eqb z 0)
  | PyStr s => negb (String.eqb s "")
  | PyDateTime _ => true
  | PyDict d => negb (bool_decide (d = ∅))
  end.

(** [v is True]: identity with the singleton [True]. *)
Definition is_True (v : PyVal) : bool :=
  match v with
  | PyBool true => true
  | _ => false
  end.

(** [v is not None]. *)
Definition is_not_None (v : PyVal) : bool :=
  match v with
  | PyNone => false
  | _ => true
  end.

(** [d.pop(key, dflt)]: the value (or the default) and the dictionary
    without the key. *)
Definition dict_pop (key : string) (dflt : PyVal) (d : dict) : PyVal * dict :=
  (default dflt (d !! key), delete key d).

(** [d.get(key, dflt)]. *)
Definition dict_get (key : string) (dflt : PyVal) (d : dict) : PyVal :=
  default dflt (d !! key).

(** [key in container]: key membership for a dictionary, substring test
    for a string, [TypeError] (here [None]) for the other values. *)
Definition py_in (key : string) (container : PyVal) : option bool :=
  match container with
  | PyDict d => Some (match d !! key with Some _ => true | None => false end)
  | PyStr s => Some (match String.index 0 key s with Some _ => true | None => false end)
  | _ => None
  end.

(** [o.get(key, dflt)] on an arbitrary value: only dictionaries have the
    method, the others raise [AttributeError]. *)
Definition py_get (o : PyVal) (key : string) (dflt : PyVal) : option PyVal :=
  match o with
  | PyDict d => Some (dict_get key dflt d)
  | _ => None
  end.

(** ** Serializer fields *)

(** The active field set of a serializer maps names to fields, in the
    order of [Meta.fields].  A field is a scalar, a serializer class
    imported from another application, or a serializer of this module
    together with its own active fields. *)
Inductive Field : Type :=
| Plain
| Imported (cls : string)
| Nested (sub : list (string * Field)).

Abbreviation fieldset := (list (string * Field)).

Definition has_field (name : string) (fs : fieldset) : bool :=
  existsb (fun p => String.eqb name (fst p)) fs.

(** [self.fields.pop(name)]: [KeyError] when the name is not there. *)
Definition fields_pop (name : string) (fs : fieldset) : option fieldset :=
  if has_field name fs
  then Some (List.filter (fun p => negb (String.eqb name (fst p))) fs)
  else None.

(** [if cond: self.fields.pop(name)] *)
Definition pop_if (cond : bool) (name : string) (fs : fieldset) : option fieldset :=
  if cond then fields_pop name fs else Some fs.

Definition is_plain (f : Field) : bool :=
  match f with
  | Plain => true
  | _ => false
  end.

(** Number of levels of embedded serializers below a field. *)
Fixpoint field_depth (f : Field) : nat :=
  match f with
  | Plain => 0
  | Imported _ => 1
  | Nested sub =>
      S ((fix go (l : fieldset) : nat :=
            match l with
            | [] => 0
            | (_, g) :: l' => Nat.max (field_depth g) (go l')
            end) sub)
  end.

(** The keys of the serialized output are the names of the active fields. *)
Definition output_keys (fs : fieldset) : list string := map fst fs.

(** ** Serializer instances *)

(** What the framework constructor [super().__init__], called with the
    remaining arguments, leaves on the instance: the field set built from
    [Meta.fields] and, when a payload was given, [initial_data].  The
    framework declares the constructor as
    [__init__(self, instance=None, data=empty, ...)]: the payload is the
    keyword [data], else the second positional argument. *)
Record Serializer : Type := {
  fields : fieldset;
  initial_data : option PyVal
}.

Definition BaseSerializer_initial_data (args : list PyVal) (kwargs : dict) : option PyVal :=
  match kwargs !! "data" with
  | Some d => Some d
  | None => args !! 1%nat
  end.

Definition super___init__ (meta_fields : fieldset) (args : list PyVal) (kwargs : dict) : Serializer :=
  {| fields := meta_fields;
     initial_data := BaseSerializer_initial_data args kwargs |}.

Definition with_fields (s : Serializer) (fs : fieldset) : Serializer :=
  {| fields := fs; initial_data := initial_data s |}.

(** [if cond: self.fields.pop(name)] on an instance. *)
Definition self_pop_if (cond : bool) (name : string) (s : Serializer) : option Serializer :=
  with_fields s <$> pop_if cond name (fields s).

Module CompanyBriefSerializer.

Definition Meta_fields : fieldset :=
  [("pk", Plain); ("url", Plain); ("name", Plain); ("description", Plain);
   ("image", Plain)].

End CompanyBriefSerializer.

Module ManufacturerPartSerializer.

Definition Meta_fields : fieldset :=
  [("pk", Plain);
   ("part", Plain);
   ("part_detail", Imported "PartBriefSerializer");
   ("pretty_name", Plain);
   ("manufacturer", Plain);
   ("manufacturer_detail", Nested CompanyBriefSerializer.Meta_fields);
   ("description", Plain);
   ("MPN", Plain);
   ("link", Plain)].

Definition __init__ (args : list PyVal) (kwargs : dict) : option Serializer :=
  let '(part_detail, kwargs) := dict_pop "part_detail" (PyBool true) kwargs in
  let '(manufacturer_detail, kwargs) := dict_pop "manufacturer_detail" (PyBool true) kwargs in
  let '(prettify, kwargs) := dict_pop "pretty" (PyBool false) kwargs in
  let self := super___init__ Meta_fields args kwargs in
  self ← self_pop_if (negb (is_True part_detail)) "part_detail" self;
  self ← self_pop_if (negb (is_True manufacturer_detail)) "manufacturer_detail" self;
  self ← self_pop_if (negb (is_True prettify)) "pretty_name" self;
  Some self.

End ManufacturerPartSerializer.

Module ManufacturerPartParameterSerializer.

(** The class body builds
    [ManufacturerPartSerializer(source='manufacturer_part', many=False, read_only=True)]. *)
Definition manufacturer_part_detail : option Serializer :=
  ManufacturerPartSerializer.__init__ []
    {[ "source" := PyStr "manufacturer_part"; "many" := PyBool false;
       "read_only" := PyBool true ]}.

Definition Meta_fields : option fieldset :=
  mp ← manufacturer_part_detail;
  Some [("pk", Plain);
        ("manufacturer_part", Plain);
        ("manufacturer_part_detail", Nested (fields mp));
        ("name", Plain);
        ("value", Plain);
        ("units", Plain)].

(** The keyword is [manufacturer_part_detail]; the constructor calls the
    popped value [man_detail]. *)
Definition __init__ (args : list PyVal) (kwargs : dict) : option Serializer :=
  let '(man_detail, kwargs) := dict_pop "manufacturer_part_detail" (PyBool false) kwargs in
  meta ← Meta_fields;
  let self := super___init__ meta args kwargs in
  self ← self_pop_if (negb (truthy man_detail)) "manufacturer_part_detail" self;
  Some self.

End ManufacturerPartParameterSerializer.

Module SupplierPartSerializer.

Record self : Type := {
  base : Serializer;
  has_available_quantity : bool
}.

(** The class body builds
    [ManufacturerPartSerializer(source='manufacturer_part', read_only=True)]. *)
Definition manufacturer_part_detail : option Serializer :=
  ManufacturerPartSerializer.__init__ []
    {[ "source" := PyStr "manufacturer_part"; "read_only" := PyBool true ]}.

Definition Meta_fields : option fieldset :=
  mp ← manufacturer_part_detail;
  Some [("available", Plain);
        ("availability_updated", Plain);
        ("description", Plain);
        ("in_stock", Plain);
        ("link", Plain);
        ("manufacturer", Plain);
        ("manufacturer_detail", Nested CompanyBriefSerializer.Meta_fields);
        ("manufacturer_part", Plain);
        ("manufacturer_part_detail", Nested (fields mp));
        ("MPN", Plain);
        ("note", Plain);
        ("pk", Plain);
        ("barcode_hash", Plain);
        ("packaging", Plain);
        ("pack_size", Plain);
        ("part", Plain);
        ("part_detail", Imported "PartBriefSerializer");
        ("pretty_name", Plain);
        ("SKU", Plain);
        ("supplier", Plain);
        ("supplier_detail", Nested CompanyBriefSerializer.Meta_fields);
        ("url", Plain);
        ("updated", Plain)].

Definition __init__ (args : list PyVal) (kwargs : dict) : option self :=
  (* Check if 'available' quantity was supplied *)
  has_available ← py_in "available" (dict_get "data" (PyDict ∅) kwargs);
  let '(brief, kwargs) := dict_pop "brief" (PyBool false) kwargs in
  let detail_default := PyBool (negb (truthy brief)) in
  let '(part_detail, kwargs) := dict_pop "part_detail" detail_default kwargs in
  let '(supplier_detail, kwargs) := dict_pop "supplier_detail" detail_default kwargs in
  let '(manufacturer_detail, kwargs) := dict_pop "manufacturer_detail" detail_default kwargs in
  let '(prettify, kwargs) := dict_pop "pretty" (PyBool false) kwargs in
  meta ← Meta_fields;
  let s := super___init__ meta args kwargs in
  s ← self_pop_if (negb (is_True part_detail)) "part_detail" s;
  s ← self_pop_if (negb (is_True supplier_detail)) "supplier_detail" s;
  s ← self_pop_if (negb (is_True manufacturer_detail)) "manufacturer_detail" s;
  s ← self_pop_if (negb (is_True manufacturer_detail)) "manufacturer_part_detail" s;
  s ← self_pop_if (negb (is_True prettify)) "pretty_name" s;
  Some {| base := s; has_available_quantity := has_available |}.

End SupplierPartSerializer.

Module SupplierPriceBreakSerializer.

(** The class body builds
    [SupplierPartSerializer(source='part', brief=True, many=False, read_only=True)]. *)
Definition part_detail_kwargs : dict :=
  {[ "source" := PyStr "part"; "brief" := PyBool true;
     "many" := PyBool false; "read_only" := PyBool true ]}.

Definition part_detail : option SupplierPartSerializer.self :=
  SupplierPartSerializer.__init__ [] part_detail_kwargs.

Definition Meta_fields : option fieldset :=
  sp ← part_detail;
  Some [("pk", Plain);
        ("part", Plain);
        ("part_detail", Nested (fields (SupplierPartSerializer.base sp)));
        ("quantity", Plain);
        ("price", Plain);
        ("price_currency", Plain);
        ("supplier", Plain);
        ("supplier_detail", Nested CompanyBriefSerializer.Meta_fields);
        ("updated", Plain)].

Definition __init__ (args : list PyVal) (kwargs : dict) : option Serializer :=
  let '(supplier_detail, kwargs) := dict_pop "supplier_detail" (PyBool false) kwargs in
  let '(part_detail, kwargs) := dict_pop "part_detail" (PyBool false) kwargs in
  meta ← Meta_fields;
  let self := super___init__ meta args kwargs in
  self ← self_pop_if (negb (truthy supplier_detail)) "supplier_detail" self;
  self ← self_pop_if (negb (truthy part_detail)) "part_detail" self;
  Some self.

End SupplierPriceBreakSerializer.

(** ** The model layer and the create / update hooks of SupplierPart *)

(** A model instance is the dictionary of its attributes. *)
Abbreviation Instance := (gmap string PyVal).

(** The calls a hook makes on the model layer, in program order. *)
Inductive Call : Type :=
| GenericCreate (validated_data : dict)
| GenericUpdate (data : dict)
| UpdateAvailableQuantity (quantity : PyVal)
| Save (kwargs : dict).

(** A hook computes a trace of calls and a result, or raises after the
    calls already made ([None]). *)
Definition Hook (A : Type) : Type := list Call * option A.

#[global] Instance Hook_ret : MRet Hook := fun A a => ([], Some a).

#[global] Instance Hook_bind : MBind Hook := fun A B f m =>
  match m with
  | (t, Some a) => let '(t', r) := f a in ((t ++ t')%list, r)
  | (t, None) => (t, None)
  end.

(** Lift a computation that may raise. *)
Definition raising {A : Type} (o : option A) : Hook A := ([], o).

Definition trace {A : Type} (m : Hook A) : list Call := fst m.
Definition result {A : Type} (m : Hook A) : option A := snd m.

Definition is_UpdateAvailableQuantity (c : Call) : bool :=
  match c with
  | UpdateAvailableQuantity _ => true
  | _ => false
  end.

Definition is_Save (c : Call) : bool :=
  match c with
  | Save _ => true
  | _ => false
  end.

(** Modelled from the spec: [SupplierPart.update_available_quantity]
    (company/models.py) sets the availability quantity and stamps the
    availability-updated timestamp with the current time. *)
Definition update_available_quantity (now : Z) (supplier_part : Instance) (quantity : PyVal) : Instance :=
  <["available" := quantity]> (<["availability_updated" := PyDateTime now]> supplier_part).

(** Modelled from the spec: [SupplierPart.save] (company/models.py) called
    with the keywords [manufacturer] and [MPN] links the SupplierPart to
    the ManufacturerPart of that manufacturer with that MPN, creating it
    when needed; without both keywords it links nothing. *)
Definition SupplierPart_save (supplier_part : Instance) (kwargs : dict) : Instance :=
  match kwargs !! "manufacturer", kwargs !! "MPN" with
  | Some manufacturer, Some MPN =>
      <["manufacturer_part" :=
          PyDict {[ "manufacturer" := manufacturer; "MPN" := MPN ]}]> supplier_part
  | _, _ => supplier_part
  end.

Module SupplierPartHooks.
Import SupplierPartSerializer.

Section ModelLayer.

(** The generic create and update paths of the framework's model
    serializer, and the reading of the clock. *)
Variable generic_create : dict → Instance.
Variable generic_update : Instance → dict → Instance.
Variable now : Z.

Definition super_create (validated_data : dict) : Hook Instance :=
  ([GenericCreate validated_data], Some (generic_create validated_data)).

Definition super_update (supplier_part : Instance) (data : dict) : Hook Instance :=
  ([GenericUpdate data], Some (generic_update supplier_part data)).

Definition call_update_available_quantity (supplier_part : Instance) (quantity : PyVal) : Hook Instance :=
  ([UpdateAvailableQuantity quantity],
   Some (update_available_quantity now supplier_part quantity)).

Definition call_save (supplier_part : Instance) (kwargs : dict) : Hook Instance :=
  ([Save kwargs], Some (SupplierPart_save supplier_part kwargs)).

(** [update(self, supplier_part, data)].  The response of the generic
    update is the object [supplier_part] itself, so the value returned
    carries the availability update made on it afterwards. *)
Definition update (self : self) (supplier_part : Instance) (data : dict) : Hook Instance :=
  let '(available, data) := dict_pop "available" PyNone data in
  response ← super_update supplier_part data;
  if is_not_None available && has_available_quantity self
  then call_update_available_quantity response available
  else mret response.

(** [create(self, validated_data)]. *)
Definition create (self : self) (validated_data : dict) : Hook Instance :=
  (* Extract 'available' quantity from the serializer *)
  let '(available, validated_data) := dict_pop "available" PyNone validated_data in
  (* Create SupplierPart *)
  supplier_part ← super_create validated_data;
  supplier_part ←
    (if is_not_None available && has_available_quantity self
     then call_update_available_quantity supplier_part available
     else mret supplier_part);
  (* Get ManufacturerPart raw data (unvalidated) *)
  initial ← raising (initial_data (base self));
  manufacturer ← raising (py_get initial "manufacturer" PyNone);
  MPN ← raising (py_get initial "MPN" PyNone);
  if truthy manufacturer && truthy MPN
  then call_save supplier_part {[ "manufacturer" := manufacturer; "MPN" := MPN ]}
  else mret supplier_part.

End ModelLayer.

End SupplierPartHooks.

(** ** Saving a Company with a remote image *)

Module CompanySerializer.

(** The in-memory image object the remote-image mixin leaves on the
    serializer: the format it reports ([None] when it reports none) and
    its method [save(buffer, format=fmt)], given by the bytes it writes to
    the buffer ([None] when the encoder raises).  [fetched_bytes] are the
    bytes the mixin downloaded and decoded the object from; they are kept
    to compare the stored content with them, [save] never reads them. *)
Record Image : Type := {
  format : option string;
  Image_save : string → option (list Byte.byte);
  fetched_bytes : list Byte.byte
}.

(** A stored file: the name and the content handed to the image field. *)
Record StoredFile : Type := {
  file_name : string;
  file_content : list Byte.byte
}.

Record Company : Type := {
  pk : Z;
  image : option StoredFile
}.

Record self : Type := {
  instance : option Company;
  remote_image_file : option Image
}.

(** [c.lower()] on an ASCII letter. *)
Definition ascii_lower (c : Ascii.ascii) : Ascii.ascii :=
  let n := Ascii.nat_of_ascii c in
  if (65 <=? n)%nat && (n <=? 90)%nat then Ascii.ascii_of_nat (n + 32) else c.

(** [s.lower()] *)
Fixpoint lower (s : string) : string :=
  match s with
  | EmptyString => EmptyString
  | String c s' => String (ascii_lower c) (lower s')
  end.

(** [remote_img.format or 'PNG'] *)
Definition format_or_PNG (remote_img : Image) : string :=
  match format remote_img with
  | Some f => if String.eqb f "" then "PNG" else f
  | None => "PNG"
  end.

(** [company.image.save(filename, ContentFile(content))] *)
Definition image_save (company : Company) (filename : string) (content : list Byte.byte) : Company :=
  {| pk := pk company;
     image := Some {| file_name := filename; file_content := content |} |}.

Section Framework.

(** The generic [save] of the framework: it creates or updates the record
    and leaves it in [self.instance]; [None] when it raises. *)
Variable super_save : self → option self.

(** [save(self)]: the instance returned, [None] when a call raises. *)
Definition save (self0 : self) : option (option Company) :=
  self1 ← super_save self0;
  let company := instance self1 in
  (* Check if an image was downloaded from a remote URL *)
  let remote_img := remote_image_file self1 in
  match remote_img, company with
  | Some remote_img, Some company =>
      let fmt := format_or_PNG remote_img in
      buffer ← Image_save remote_img fmt;
      (* Construct a simplified name for the image *)
      let filename := "company_" +:+ pretty (pk company) +:+ "_image." +:+ lower fmt in
      Some (Some (image_save company filename buffer))
  | _, _ => Some company
  end.

End Framework.

End CompanySerializer.

(** ** Validation of the declared currency and reference fields *)

Module Validation.

Inductive ValidationError : Type :=
| required
| invalid_choice
| does_not_exist
| incorrect_type.

(** A Company row, with its role flags. *)
Record CompanyRow : Type := {
  is_customer : bool;
  is_manufacturer : bool;
  is_supplier : bool
}.

(** The two kinds of field the serializers declare with a constraint:
    [ChoiceField(choices=..., required=..., default=...)] and
    [PrimaryKeyRelatedField(queryset=...)]. *)
Inductive FieldDecl : Type :=
| ChoiceField (choices : list (string * string)) (is_required : bool) (dflt : option PyVal)
| PrimaryKeyRelatedField (queryset : gmap Z CompanyRow).

(** Modelled from the spec: the framework's validation of one submitted
    value.  A currency field rejects a code that is not in its configured
    mapping; a reference field rejects a key that its constrained
    queryset does not contain. *)
Definition validate_value (f : FieldDecl) (v : PyVal) : ValidationError + PyVal :=
  match f, v with
  | ChoiceField choices _ _, PyStr code =>
      if bool_decide (code ∈ choices.*1) then inr v else inl invalid_choice
  | ChoiceField _ _ _, _ => inl invalid_choice
  | PrimaryKeyRelatedField queryset, PyInt key =>
      match queryset !! key with
      | Some _ => inr v
      | None => inl does_not_exist
      end
  | PrimaryKeyRelatedField _, _ => inl incorrect_type
  end.

(** Modelled from the spec: validation of a field of the payload; a
    missing required field is an error, a missing optional one takes its
    default. *)
Definition validate_field (f : FieldDecl) (submitted : option PyVal) : ValidationError + option PyVal :=
  match submitted with
  | Some v =>
      match validate_value f v with
      | inl e => inl e
      | inr v' => inr (Some v')
      end
  | None =>
      match f with
      | ChoiceField _ true _ => inl required
      | ChoiceField _ false dflt => inr dflt
      | PrimaryKeyRelatedField _ => inl required
      end
  end.

(** Modelled from the spec: the field-keyed error detail of a payload. *)
Definition errors (declared : list (string * FieldDecl)) (payload : dict) : gmap string ValidationError :=
  list_to_map
    (omap (λ p : string * FieldDecl,
             match validate_field p.2 (payload !! p.1) with
             | inl e => Some (p.1, e)
             | inr _ => None
             end) declared).

Section Settings.

(** The currency configuration ([common.settings]) and the Company table. *)
Variable currency_code_mappings : list (string * string).
Variable currency_code_default : string.
Variable Company_objects : gmap Z CompanyRow.

(** [Company.objects.filter(flag=True)] *)
Definition Company_objects_filter (flag : CompanyRow → bool) : gmap Z CompanyRow :=
  filter (λ kv : Z * CompanyRow, flag kv.2 = true) Company_objects.

(** [CompanySerializer.currency] *)
Definition CompanySerializer_currency : FieldDecl :=
  ChoiceField currency_code_mappings true None.

(** [SupplierPriceBreakSerializer.price_currency] *)
Definition SupplierPriceBreakSerializer_price_currency : FieldDecl :=
  ChoiceField currency_code_mappings false (Some (PyStr currency_code_default)).

(** [ManufacturerPartSerializer.manufacturer] *)
Definition ManufacturerPartSerializer_manufacturer : FieldDecl :=
  PrimaryKeyRelatedField (Company_objects_filter is_manufacturer).

(** [SupplierPartSerializer.supplier] *)
Definition SupplierPartSerializer_supplier : FieldDecl :=
  PrimaryKeyRelatedField (Company_objects_filter is_supplier).

Definition CompanySerializer_declared : list (string * FieldDecl) :=
  [("currency", CompanySerializer_currency)].

Definition SupplierPriceBreakSerializer_declared : list (string * FieldDecl) :=
  [("price_currency", SupplierPriceBreakSerializer_price_currency)].

Definition ManufacturerPartSerializer_declared : list (string * FieldDecl) :=
  [("manufacturer", ManufacturerPartSerializer_manufacturer)].

Definition SupplierPartSerializer_declared : list (string * FieldDecl) :=
  [("supplier", SupplierPartSerializer_supplier)].

End Settings.

End Validation.

(** ** Vocabulary of the statements *)

(** The field registered under a name. *)
Definition field_lookup (name : string) (fs : fieldset) : option Field :=
  snd <$> List.find (fun p => String.eqb name (fst p)) fs.

(** A toggle tested with [is not True]: the keyword's value when given,
    the default otherwise. *)
Definition flag_is_True (kwargs : dict) (flag : string) (dflt : bool) : bool :=
  match kwargs !! flag with
  | Some v => is_True v
  | None => dflt
  end.

(** A toggle tested with [not]. *)
Definition flag_truthy (kwargs : dict) (flag : string) (dflt : bool) : bool :=
  match kwargs !! flag with
  | Some v => truthy v
  | None => dflt
  end.

(** Brief mode of a SupplierPartSerializer: the truth value of the keyword
    [brief], off by default. *)
Definition brief_mode (kwargs : dict) : bool := flag_truthy kwargs "brief" false.

(** The toggle rule the specification gives for SupplierPartSerializer:
    the field is there iff the flag is not explicitly disabled and, when
    the flag is omitted, the serializer is not in brief mode. *)
Definition SupplierPart_toggle_rule (flag field : string) : Prop :=
  ∀ (args : list PyVal) (kwargs : dict) (s : SupplierPartSerializer.self),
    SupplierPartSerializer.__init__ args kwargs = Some s →
    has_field field (fields (SupplierPartSerializer.base s))
    = flag_is_True kwargs flag (negb (brief_mode kwargs)).

(** The detail fields a brief SupplierPart view must not carry. *)
Definition nested_detail_names : list string :=
  ["part_detail"; "supplier_detail"; "manufacturer_detail";
   "manufacturer_part_detail"; "pretty_name"].

(** The rule the specification gives for the secondary save: whenever the
    raw input holds a manufacturer reference and an MPN string, [create]
    saves the new SupplierPart once more with both as keywords. *)
Definition secondary_save_rule : Prop :=
  ∀ (generic_create : dict → Instance) (now : Z)
    (self : SupplierPartSerializer.self) (validated_data initial : dict)
    (manufacturer : PyVal) (MPN : string),
    initial_data (SupplierPartSerializer.base self) = Some (PyDict initial) →
    initial !! "manufacturer" = Some manufacturer →
    manufacturer ≠ PyNone →
    initial !! "MPN" = Some (PyStr MPN) →
    Save {[ "manufacturer" := manufacturer; "MPN" := PyStr MPN ]}
    ∈ trace (SupplierPartHooks.create generic_create now self validated_data).

(** Whether a hook applies the availability update. *)
Definition applies_available (self : SupplierPartSerializer.self) (data : dict) : bool :=
  is_not_None (dict_get "available" PyNone data)
  && SupplierPartSerializer.has_available_quantity self.

(** Whether [create] makes the secondary save for a raw input. *)
Definition links_manufacturer (initial : dict) : bool :=
  truthy (dict_get "manufacturer" PyNone initial)
  && truthy (dict_get "MPN" PyNone initial).

(** The keywords of the secondary save. *)
Definition save_kwargs (initial : dict) : dict :=
  {[ "manufacturer" := dict_get "manufacturer" PyNone initial;
     "MPN" := dict_get "MPN" PyNone initial ]}.

(** The calls [create] makes before it reads the raw input. *)
Definition create_prefix (self : SupplierPartSerializer.self) (validated_data : dict) : list Call :=
  GenericCreate (delete "available" validated_data)
  :: (if applies_available self validated_data
      then [UpdateAvailableQuantity (dict_get "available" PyNone validated_data)]
      else []).

(** The new SupplierPart after these calls. *)
Definition created (generic_create : dict → Instance) (now : Z)
    (self : SupplierPartSerializer.self) (validated_data : dict) : Instance :=
  let supplier_part := generic_create (delete "available" validated_data) in
  if applies_available self validated_data
  then update_available_quantity now supplier_part
         (dict_get "available" PyNone validated_data)
  else supplier_part.

(** The name [save] gives the stored image of a company. *)
Definition image_filename (company : CompanySerializer.Company)
    (remote_img : CompanySerializer.Image) : string :=
  "company_" +:+ pretty (CompanySerializer.pk company) +:+ "_image."
  +:+ CompanySerializer.lower (CompanySerializer.format_or_PNG remote_img).

(** The rule the specification gives for a fetched remote image: the
    stored file has that name and the fetched bytes as content. *)
Definition remote_image_rule : Prop :=
  ∀ (super_save : CompanySerializer.self → option CompanySerializer.self)
    (self0 self1 : CompanySerializer.self) (company : CompanySerializer.Company)
    (remote_img : CompanySerializer.Image),
    super_save self0 = Some self1 →
    CompanySerializer.instance self1 = Some company →
    CompanySerializer.remote_image_file self1 = Some remote_img →
    ∃ stored,
      CompanySerializer.save super_save self0 = Some (Some stored) ∧
      CompanySerializer.image stored
      = Some {| CompanySerializer.file_name := image_filename company remote_img;
                CompanySerializer.file_content :=
                  CompanySerializer.fetched_bytes remote_img |}.

(** ** Sample inputs *)

(** A generic create path that stores the data it is handed under a new
    key, and a generic update path that sets the attributes it is handed. *)
Definition sample_generic_create (validated_data : dict) : Instance :=
  <["pk" := PyInt 1]> validated_data.

Definition sample_generic_update (instance : Instance) (data : dict) : Instance :=
  data ∪ instance.

Definition sample_now : Z := 1700000000.

Definition sample_payload : dict :=
  {[ "available" := PyStr "50"; "SKU" := PyStr "R-10K";
     "manufacturer" := PyInt 3; "MPN" := PyStr "ABC123" ]}.

Definition sample_validated_data : dict :=
  {[ "available" := PyInt 50; "SKU" := PyStr "R-10K" ]}.

(** A raw input whose MPN is the empty string. *)
Definition empty_MPN_payload : dict :=
  {[ "SKU" := PyStr "R-10K"; "manufacturer" := PyInt 3; "MPN" := PyStr "" ]}.

(** A JPEG download whose re-encoding writes other bytes than fetched. *)
Definition sample_jpeg : CompanySerializer.Image :=
  {| CompanySerializer.format := Some "JPEG";
     CompanySerializer.Image_save := λ fmt,
       if String.eqb fmt "JPEG"
       then Some [Byte.xff; Byte.xd8; Byte.x01]
       else Some [Byte.x89; Byte.x50; Byte.x01];
     CompanySerializer.fetched_bytes := [Byte.xff; Byte.xd8; Byte.x00] |}.

(** An image object that reports no format. *)
Definition sample_no_format : CompanySerializer.Image :=
  {| CompanySerializer.format := None;
     CompanySerializer.Image_save := λ fmt,
       if String.eqb fmt "PNG" then Some [Byte.x89; Byte.x50; Byte.x01] else None;
     CompanySerializer.fetched_bytes := [Byte.xff; Byte.xd8; Byte.x00] |}.

Definition sample_company : CompanySerializer.Company :=
  {| CompanySerializer.pk := 7; CompanySerializer.image := None |}.

Definition sample_company_self (remote_img : CompanySerializer.Image) : CompanySerializer.self :=
  {| CompanySerializer.instance := Some sample_company;
     CompanySerializer.remote_image_file := Some remote_img |}.

(** A Company table: a supplier, a manufacturer, a customer. *)
Definition sample_companies : gmap Z Validation.CompanyRow :=
  {[ 1%Z := {| Validation.is_customer := false; Validation.is_manufacturer := false;
               Validation.is_supplier := true |};
     2%Z := {| Validation.is_customer := false; Validation.is_manufacturer := true;
               Validation.is_supplier := false |};
     3%Z := {| Validation.is_customer := true; Validation.is_manufacturer := false;
               Validation.is_supplier := false |} ]}.

Definition sample_currencies : list (string * string) :=
  [("AUD", "Australian Dollar"); ("EUR", "Euro"); ("USD", "US Dollar")].

(** ** Vocabulary of the further properties *)

(** A field set without the fields of the given names, order kept. *)
Definition without (names : list string) (fs : fieldset) : fieldset :=
  List.filter (λ p, negb (existsb (String.eqb p.1) names)) fs.

(** The names a constructor removes: [name] unless the flag is on. *)
Definition removed_unless (flag_on : bool) (names : list string) : list string :=
  if flag_on then [] else names.

Definition ManufacturerPart_removed (kwargs : dict) : list string :=
  (removed_unless (flag_is_True kwargs "part_detail" true) ["part_detail"]
   ++ removed_unless (flag_is_True kwargs "manufacturer_detail" true) ["manufacturer_detail"]
   ++ removed_unless (flag_is_True kwargs "pretty" false) ["pretty_name"])%list.

Definition ManufacturerPartParameter_removed (kwargs : dict) : list string :=
  removed_unless (flag_truthy kwargs "manufacturer_part_detail" false)
    ["manufacturer_part_detail"].

Definition SupplierPart_removed (kwargs : dict) : list string :=
  let detail_default := negb (brief_mode kwargs) in
  (removed_unless (flag_is_True kwargs "part_detail" detail_default) ["part_detail"]
   ++ removed_unless (flag_is_True kwargs "supplier_detail" detail_default)
        ["supplier_detail"]
   ++ removed_unless (flag_is_True kwargs "manufacturer_detail" detail_default)
        ["manufacturer_detail"; "manufacturer_part_detail"]
   ++ removed_unless (flag_is_True kwargs "pretty" false) ["pretty_name"])%list.

Definition SupplierPriceBreak_removed (kwargs : dict) : list string :=
  (removed_unless (flag_truthy kwargs "supplier_detail" false) ["supplier_detail"]
   ++ removed_unless (flag_truthy kwargs "part_detail" false) ["part_detail"])%list.

(** The deepest embedding among the fields of a field set. *)
Definition fieldset_depth (fs : fieldset) : nat :=
  foldr (λ p, Nat.max (field_depth p.2)) 0%nat fs.


(** The company [save] returns for [sample_company] and [sample_jpeg]. *)
Definition sample_stored : CompanySerializer.Company :=
  {| CompanySerializer.pk := 7;
     CompanySerializer.image :=
       Some {| CompanySerializer.file_name := "company_7_image.jpeg";
               CompanySerializer.file_content := [Byte.xff; Byte.xd8; Byte.x01] |} |}.


(** * Properties *)

(** ** Dictionaries and flags *)

Lemma is_True_default (kwargs : dict) (flag : string) (dflt : bool) :
  is_True (default (PyBool dflt) (kwargs !! flag)) = flag_is_True kwargs flag dflt.
Proof.
  unfold flag_is_True. destruct (kwargs !! flag) as [v|]; [done|].
  by destruct dflt.
Qed.

Lemma truthy_default (kwargs : dict) (flag : string) (dflt : bool) :
  truthy (default (PyBool dflt) (kwargs !! flag)) = flag_truthy kwargs flag dflt.
Proof. unfold flag_truthy. by destruct (kwargs !! flag). Qed.

(** ** Constructors: which optional fields stay *)

Lemma ManufacturerPartSerializer_toggles (args : list PyVal) (kwargs : dict) :
  ∃ s, ManufacturerPartSerializer.__init__ args kwargs = Some s ∧
       has_field "part_detail" (fields s) = flag_is_True kwargs "part_detail" true ∧
       has_field "manufacturer_detail" (fields s)
       = flag_is_True kwargs "manufacturer_detail" true ∧
       has_field "pretty_name" (fields s) = flag_is_True kwargs "pretty" false.
Proof.
  unfold ManufacturerPartSerializer.__init__, dict_pop, super___init__.
  rewrite !lookup_delete_ne by done. rewrite !is_True_default.
  generalize (BaseSerializer_initial_data args
    (delete "pretty" (delete "manufacturer_detail" (delete "part_detail" kwargs)))).
  intros d.
  destruct (flag_is_True kwargs "part_detail" true),
    (flag_is_True kwargs "manufacturer_detail" true),
    (flag_is_True kwargs "pretty" false);
    (eexists; split; [vm_compute; reflexivity | done]).
Qed.

Lemma ManufacturerPartParameterSerializer_toggles (args : list PyVal) (kwargs : dict) :
  ∃ s, ManufacturerPartParameterSerializer.__init__ args kwargs = Some s ∧
       has_field "manufacturer_part_detail" (fields s)
       = flag_truthy kwargs "manufacturer_part_detail" false.
Proof.
  unfold ManufacturerPartParameterSerializer.__init__, dict_pop, super___init__.
  rewrite truthy_default.
  generalize (BaseSerializer_initial_data args (delete "manufacturer_part_detail" kwargs)).
  intros d.
  destruct (flag_truthy kwargs "manufacturer_part_detail" false);
    (eexists; split; [vm_compute; reflexivity | done]).
Qed.

Lemma SupplierPriceBreakSerializer_toggles (args : list PyVal) (kwargs : dict) :
  ∃ s, SupplierPriceBreakSerializer.__init__ args kwargs = Some s ∧
       has_field "supplier_detail" (fields s) = flag_truthy kwargs "supplier_detail" false ∧
       has_field "part_detail" (fields s) = flag_truthy kwargs "part_detail" false.
Proof.
  unfold SupplierPriceBreakSerializer.__init__, dict_pop, super___init__.
  rewrite !lookup_delete_ne by done. rewrite !truthy_default.
  generalize (BaseSerializer_initial_data args
    (delete "part_detail" (delete "supplier_detail" kwargs))).
  intros d.
  destruct (flag_truthy kwargs "supplier_detail" false),
    (flag_truthy kwargs "part_detail" false);
    (eexists; split; [vm_compute; reflexivity | done]).
Qed.

Lemma initial_data_delete (args : list PyVal) (kwargs : dict) (key : string) :
  key ≠ "data" →
  BaseSerializer_initial_data args (delete key kwargs)
  = BaseSerializer_initial_data args kwargs.
Proof.
  intros Hne. unfold BaseSerializer_initial_data.
  by rewrite lookup_delete_ne.
Qed.

Lemma SupplierPartSerializer_toggles (args : list PyVal) (kwargs : dict) :
  match SupplierPartSerializer.__init__ args kwargs with
  | Some s =>
      let fs := fields (SupplierPartSerializer.base s) in
      let detail_default := negb (brief_mode kwargs) in
      has_field "part_detail" fs = flag_is_True kwargs "part_detail" detail_default ∧
      has_field "supplier_detail" fs = flag_is_True kwargs "supplier_detail" detail_default ∧
      has_field "manufacturer_detail" fs
      = flag_is_True kwargs "manufacturer_detail" detail_default ∧
      has_field "manufacturer_part_detail" fs
      = flag_is_True kwargs "manufacturer_detail" detail_default ∧
      has_field "pretty_name" fs = flag_is_True kwargs "pretty" false ∧
      py_in "available" (dict_get "data" (PyDict ∅) kwargs)
      = Some (SupplierPartSerializer.has_available_quantity s) ∧
      initial_data (SupplierPartSerializer.base s) = BaseSerializer_initial_data args kwargs
  | None => py_in "available" (dict_get "data" (PyDict ∅) kwargs) = None
  end.
Proof.
  unfold SupplierPartSerializer.__init__.
  destruct (py_in "available" (dict_get "data" (PyDict ∅) kwargs)) as [h|]; [|done].
  unfold dict_pop, super___init__, brief_mode.
  rewrite !lookup_delete_ne by done.
  rewrite truthy_default, !is_True_default.
  rewrite !initial_data_delete by done.
  generalize (BaseSerializer_initial_data args kwargs). intros d.
  destruct (flag_truthy kwargs "brief" false); cbn [negb];
    destruct (flag_is_True kwargs "part_detail" _),
      (flag_is_True kwargs "supplier_detail" _),
      (flag_is_True kwargs "manufacturer_detail" _),
      (flag_is_True kwargs "pretty" false);
    vm_compute; done.
Qed.

(** The rule of the specification does hold for the three detail flags
    of SupplierPartSerializer. *)
Lemma SupplierPart_detail_toggle_rule :
  SupplierPart_toggle_rule "part_detail" "part_detail" ∧
  SupplierPart_toggle_rule "supplier_detail" "supplier_detail" ∧
  SupplierPart_toggle_rule "manufacturer_detail" "manufacturer_detail".
Proof.
  repeat split; intros args kwargs s Hs;
    pose proof (SupplierPartSerializer_toggles args kwargs) as H;
    rewrite Hs in H; cbn zeta in H; tauto.
Qed.

Example SupplierPart_default_fields :
  (λ s, output_keys (fields (SupplierPartSerializer.base s)))
    <$> SupplierPartSerializer.__init__ [] ∅
  = Some ["available"; "availability_updated"; "description"; "in_stock"; "link";
          "manufacturer"; "manufacturer_detail"; "manufacturer_part";
          "manufacturer_part_detail"; "MPN"; "note"; "pk"; "barcode_hash";
          "packaging"; "pack_size"; "part"; "part_detail"; "SKU"; "supplier";
          "supplier_detail"; "url"; "updated"].
Proof. by vm_compute. Qed.

Example SupplierPart_brief_fields :
  (λ s, output_keys (fields (SupplierPartSerializer.base s)))
    <$> SupplierPartSerializer.__init__ [] {[ "brief" := PyBool true ]}
  = Some ["available"; "availability_updated"; "description"; "in_stock"; "link";
          "manufacturer"; "manufacturer_part"; "MPN"; "note"; "pk"; "barcode_hash";
          "packaging"; "pack_size"; "part"; "SKU"; "supplier"; "url"; "updated"].
Proof. by vm_compute. Qed.

(** A flag that is truthy but not [True] removes the field of a
    ManufacturerPartSerializer, whose test is [is not True]. *)
Example ManufacturerPart_flag_one :
  (λ s, has_field "part_detail" (fields s))
    <$> ManufacturerPartSerializer.__init__ [] {[ "part_detail" := PyInt 1 ]}
  = Some false.
Proof. by vm_compute. Qed.

(** C3, as stated, fails for the flag [pretty] of SupplierPartSerializer:
    constructed with no keyword at all, the flag is not disabled and the
    serializer is not in brief mode, yet [pretty_name] is removed. *)
Lemma C3_pretty_counterexample :
  ¬ SupplierPart_toggle_rule "pretty" "pretty_name".
Proof.
  intros Hrule.
  destruct (SupplierPartSerializer.__init__ [] ∅) as [s|] eqn:Hs;
    [|by vm_compute in Hs].
  specialize (Hrule [] ∅ s Hs).
  vm_compute in Hs. injection Hs as <-. by vm_compute in Hrule.
Qed.

(** C3 (amended): every constructor succeeds (SupplierPartSerializer raises
    only when the membership test on the keyword [data] does), and each
    optional field is in the active field set iff its flag is on: the
    flags [part_detail], [manufacturer_detail] and [pretty] of
    ManufacturerPartSerializer are on when they are [True] (defaults
    [True], [True], [False]); [man_detail] (keyword
    [manufacturer_part_detail]) of ManufacturerPartParameterSerializer and
    [supplier_detail], [part_detail] of SupplierPriceBreakSerializer are on
    when truthy (default [False]); for SupplierPartSerializer the three
    detail flags are on when given as [True] or, when omitted, when the
    serializer is not in brief mode ([manufacturer_detail] also governs
    [manufacturer_part_detail]), while [pretty_name] is there only when
    [pretty] is given as [True], whatever the brief mode. *)
Theorem C3_toggle_flags (args : list PyVal) (kwargs : dict) :
  (∃ s, ManufacturerPartSerializer.__init__ args kwargs = Some s ∧
        has_field "part_detail" (fields s) = flag_is_True kwargs "part_detail" true ∧
        has_field "manufacturer_detail" (fields s)
        = flag_is_True kwargs "manufacturer_detail" true ∧
        has_field "pretty_name" (fields s) = flag_is_True kwargs "pretty" false) ∧
  (∃ s, ManufacturerPartParameterSerializer.__init__ args kwargs = Some s ∧
        has_field "manufacturer_part_detail" (fields s)
        = flag_truthy kwargs "manufacturer_part_detail" false) ∧
  (∃ s, SupplierPriceBreakSerializer.__init__ args kwargs = Some s ∧
        has_field "supplier_detail" (fields s)
        = flag_truthy kwargs "supplier_detail" false ∧
        has_field "part_detail" (fields s) = flag_truthy kwargs "part_detail" false) ∧
  match SupplierPartSerializer.__init__ args kwargs with
  | Some s =>
      let fs := fields (SupplierPartSerializer.base s) in
      let detail_default := negb (brief_mode kwargs) in
      has_field "part_detail" fs = flag_is_True kwargs "part_detail" detail_default ∧
      has_field "supplier_detail" fs = flag_is_True kwargs "supplier_detail" detail_default ∧
      has_field "manufacturer_detail" fs
      = flag_is_True kwargs "manufacturer_detail" detail_default ∧
      has_field "manufacturer_part_detail" fs
      = flag_is_True kwargs "manufacturer_detail" detail_default ∧
      has_field "pretty_name" fs = flag_is_True kwargs "pretty" false
  | None => py_in "available" (dict_get "data" (PyDict ∅) kwargs) = None
  end.
Proof.
  split; [apply ManufacturerPartSerializer_toggles|].
  split; [apply ManufacturerPartParameterSerializer_toggles|].
  split; [apply SupplierPriceBreakSerializer_toggles|].
  pose proof (SupplierPartSerializer_toggles args kwargs) as H.
  destruct (SupplierPartSerializer.__init__ args kwargs); [|done].
  cbn zeta in *. tauto.
Qed.

(** ** The part detail of a price break *)

(** C8: a SupplierPriceBreakSerializer with [part_detail] enabled is
    built, and its [part_detail] field is the SupplierPartSerializer the
    class body constructs with [brief=True]: that view carries none of
    [part_detail], [supplier_detail], [manufacturer_detail],
    [manufacturer_part_detail], [pretty_name], all its fields are scalar,
    so the embedding is one level deep. *)
Theorem C8_brief_part_detail (args : list PyVal) (kwargs : dict) :
  flag_truthy kwargs "part_detail" false = true →
  ∃ s sp,
    SupplierPriceBreakSerializer.__init__ args kwargs = Some s ∧
    SupplierPriceBreakSerializer.part_detail = Some sp ∧
    brief_mode SupplierPriceBreakSerializer.part_detail_kwargs = true ∧
    field_lookup "part_detail" (fields s)
    = Some (Nested (fields (SupplierPartSerializer.base sp))) ∧
    Forall (λ n, has_field n (fields (SupplierPartSerializer.base sp)) = false
                 ∧ n ∉ output_keys (fields (SupplierPartSerializer.base sp)))
      nested_detail_names ∧
    forallb (λ p, is_plain p.2) (fields (SupplierPartSerializer.base sp)) = true ∧
    field_depth (Nested (fields (SupplierPartSerializer.base sp))) = 1.
Proof.
  intros Hflag.
  destruct SupplierPriceBreakSerializer.part_detail as [sp|] eqn:Hsp;
    [|by vm_compute in Hsp].
  unfold SupplierPriceBreakSerializer.__init__, dict_pop, super___init__.
  rewrite !lookup_delete_ne by done. rewrite !truthy_default, Hflag.
  generalize (BaseSerializer_initial_data args
    (delete "part_detail" (delete "supplier_detail" kwargs))).
  intros d.
  vm_compute in Hsp. injection Hsp as <-.
  destruct (flag_truthy kwargs "supplier_detail" false);
    (eexists _, _; split; [vm_compute; reflexivity|];
     split; [reflexivity|]; split; [by vm_compute|];
     split; [by vm_compute|]; split; [|by vm_compute]).
  all: unfold nested_detail_names; repeat constructor; try done.
  all: vm_compute; intros Hin; repeat (inversion Hin as [|? ? ? Hin']; clear Hin; rename Hin' into Hin; subst); inversion Hin.
Qed.

Lemma C8_brief_part_detail_witness :
  ∃ s sp,
    SupplierPriceBreakSerializer.__init__ [] {[ "part_detail" := PyBool true ]} = Some s ∧
    SupplierPriceBreakSerializer.part_detail = Some sp ∧
    brief_mode SupplierPriceBreakSerializer.part_detail_kwargs = true ∧
    field_lookup "part_detail" (fields s)
    = Some (Nested (fields (SupplierPartSerializer.base sp))) ∧
    Forall (λ n, has_field n (fields (SupplierPartSerializer.base sp)) = false
                 ∧ n ∉ output_keys (fields (SupplierPartSerializer.base sp)))
      nested_detail_names ∧
    forallb (λ p, is_plain p.2) (fields (SupplierPartSerializer.base sp)) = true ∧
    field_depth (Nested (fields (SupplierPartSerializer.base sp))) = 1.
Proof.
  apply (C8_brief_part_detail [] {[ "part_detail" := PyBool true ]}).
  reflexivity.
Defined.

(** ** The hooks of SupplierPartSerializer *)

Section HookEquations.
Import SupplierPartSerializer SupplierPartHooks.

Variable generic_create : dict → Instance.
Variable generic_update : Instance → dict → Instance.
Variable now : Z.

(** [update] in one equation: the generic update on the data without
    ['available'], then the availability update when it applies. *)
Lemma update_eq (self : self) (supplier_part : Instance) (data : dict) :
  update generic_update now self supplier_part data
  = let data' := delete "available" data in
    let response := generic_update supplier_part data' in
    if applies_available self data
    then ([GenericUpdate data'; UpdateAvailableQuantity (dict_get "available" PyNone data)],
          Some (update_available_quantity now response (dict_get "available" PyNone data)))
    else ([GenericUpdate data'], Some response).
Proof.
  unfold update, applies_available, dict_pop, dict_get. cbn zeta.
  by destruct (is_not_None _ && has_available_quantity self).
Qed.

(** [create] in one equation. *)
Lemma create_eq (self : self) (validated_data : dict) :
  create generic_create now self validated_data
  = match initial_data (base self) with
    | Some (PyDict initial) =>
        if links_manufacturer initial
        then ((create_prefix self validated_data ++ [Save (save_kwargs initial)])%list,
              Some (SupplierPart_save (created generic_create now self validated_data)
                      (save_kwargs initial)))
        else (create_prefix self validated_data,
              Some (created generic_create now self validated_data))
    | _ => (create_prefix self validated_data, None)
    end.
Proof.
  unfold create, create_prefix, created, applies_available, links_manufacturer,
    save_kwargs, dict_pop, dict_get.
  cbn zeta.
  destruct (is_not_None _ && has_available_quantity self);
    destruct (initial_data (base self)) as [[| | | | |initial]|]; try reflexivity;
    cbn; by destruct (truthy _ && truthy _).
Qed.

End HookEquations.

Section HookProperties.
Import SupplierPartSerializer SupplierPartHooks.

Variable generic_create : dict → Instance.
Variable generic_update : Instance → dict → Instance.
Variable now : Z.

Lemma SupplierPart_save_other (supplier_part : Instance) (kwargs : dict) (key : string) :
  key ≠ "manufacturer_part" →
  SupplierPart_save supplier_part kwargs !! key = supplier_part !! key.
Proof.
  intros Hne. unfold SupplierPart_save.
  destruct (kwargs !! "manufacturer"), (kwargs !! "MPN"); try done.
  by rewrite lookup_insert_ne.
Qed.

Lemma SupplierPart_save_links (supplier_part : Instance) (initial : dict) :
  SupplierPart_save supplier_part (save_kwargs initial) !! "manufacturer_part"
  = Some (PyDict (save_kwargs initial)).
Proof.
  unfold SupplierPart_save.
  replace (save_kwargs initial !! "manufacturer")
    with (Some (dict_get "manufacturer" PyNone initial))
    by (unfold save_kwargs; by rewrite lookup_insert_eq).
  replace (save_kwargs initial !! "MPN") with (Some (dict_get "MPN" PyNone initial))
    by (unfold save_kwargs; by rewrite lookup_insert_ne, lookup_singleton_eq).
  by rewrite lookup_insert_eq.
Qed.

Lemma update_available_quantity_available (supplier_part : Instance) (quantity : PyVal) :
  update_available_quantity now supplier_part quantity !! "available" = Some quantity.
Proof. unfold update_available_quantity. by rewrite lookup_insert_eq. Qed.

Lemma update_available_quantity_stamp (supplier_part : Instance) (quantity : PyVal) :
  update_available_quantity now supplier_part quantity !! "availability_updated"
  = Some (PyDateTime now).
Proof.
  unfold update_available_quantity.
  by rewrite lookup_insert_ne, lookup_insert_eq.
Qed.

Lemma update_available_quantity_other (supplier_part : Instance) (quantity : PyVal) (key : string) :
  key ≠ "available" → key ≠ "availability_updated" →
  update_available_quantity now supplier_part quantity !! key = supplier_part !! key.
Proof.
  intros H1 H2. unfold update_available_quantity.
  by rewrite !lookup_insert_ne.
Qed.

(** A serializer built with a payload under the keyword [data]. *)
Lemma init_with_payload (args : list PyVal) (kwargs payload : dict) :
  kwargs !! "data" = Some (PyDict payload) →
  ∃ self, __init__ args kwargs = Some self ∧
          has_available_quantity self
          = match payload !! "available" with Some _ => true | None => false end ∧
          initial_data (base self) = Some (PyDict payload).
Proof.
  intros Hdata. pose proof (SupplierPartSerializer_toggles args kwargs) as H.
  unfold dict_get, BaseSerializer_initial_data in H. rewrite Hdata in H. cbn in H.
  destruct (__init__ args kwargs) as [self|]; [|done].
  exists self. destruct H as (_ & _ & _ & _ & _ & [= <-] & ->). done.
Qed.

(** A serializer built without the keyword [data]. *)
Lemma init_without_data (args : list PyVal) (kwargs : dict) :
  kwargs !! "data" = None →
  ∃ self, __init__ args kwargs = Some self ∧
          has_available_quantity self = false ∧
          initial_data (base self) = args !! 1%nat.
Proof.
  intros Hdata. pose proof (SupplierPartSerializer_toggles args kwargs) as H.
  unfold dict_get, BaseSerializer_initial_data in H. rewrite Hdata in H. cbn in H.
  destruct (__init__ args kwargs) as [self|]; [|done].
  exists self. destruct H as (_ & _ & _ & _ & _ & [= <-] & ->). done.
Qed.

Lemma create_prefix_no_update (self : self) (validated_data : dict) :
  has_available_quantity self = false →
  create_prefix self validated_data = [GenericCreate (delete "available" validated_data)].
Proof.
  intros Hhas. unfold create_prefix, applies_available.
  by rewrite Hhas, andb_false_r.
Qed.

Lemma created_no_update (self : self) (validated_data : dict) :
  has_available_quantity self = false →
  created generic_create now self validated_data
  = generic_create (delete "available" validated_data).
Proof.
  intros Hhas. unfold created, applies_available.
  by rewrite Hhas, andb_false_r.
Qed.

(** C1: a SupplierPartSerializer built with the payload under the keyword
    [data] is constructed and its [create] returns the new SupplierPart.
    When the payload contains ['available'] and the validated data carry a
    value [v] other than [None] for it, [create] calls
    [update_available_quantity] with [v], and the SupplierPart returned has
    availability [v] and the availability-updated timestamp of the call.
    When the payload lacks ['available'], [create] never calls
    [update_available_quantity], and availability and timestamp are those
    the generic create path produced. *)
Theorem C1_create_available (args : list PyVal) (kwargs payload validated_data : dict) :
  kwargs !! "data" = Some (PyDict payload) →
  ∃ self supplier_part,
    __init__ args kwargs = Some self ∧
    result (create generic_create now self validated_data) = Some supplier_part ∧
    (∀ v, is_Some (payload !! "available") →
          validated_data !! "available" = Some v → v ≠ PyNone →
          UpdateAvailableQuantity v ∈ trace (create generic_create now self validated_data) ∧
          supplier_part !! "available" = Some v ∧
          supplier_part !! "availability_updated" = Some (PyDateTime now)) ∧
    (payload !! "available" = None →
       Forall (λ c, is_UpdateAvailableQuantity c = false)
         (trace (create generic_create now self validated_data)) ∧
       supplier_part !! "available"
       = generic_create (delete "available" validated_data) !! "available" ∧
       supplier_part !! "availability_updated"
       = generic_create (delete "available" validated_data) !! "availability_updated").
Proof.
  intros Hdata.
  destruct (init_with_payload args kwargs payload Hdata) as (self & Hinit & Hhas & Hini).
  exists self. rewrite create_eq, Hini.
  destruct (links_manufacturer payload); cbn [result trace fst snd];
    (eexists; split; [exact Hinit|]; split; [reflexivity|]; split).
  - intros v [raw Hraw] Hv Hnn. rewrite Hraw in Hhas.
    assert (dict_get "available" PyNone validated_data = v) as Hget
      by (unfold dict_get; by rewrite Hv).
    assert (applies_available self validated_data = true) as Happ
      by (unfold applies_available; rewrite Hget, Hhas; by destruct v).
    unfold create_prefix, created. rewrite Happ, Hget.
    rewrite !SupplierPart_save_other by done.
    rewrite update_available_quantity_available, update_available_quantity_stamp.
    split; [|done]. apply elem_of_app; left. apply elem_of_cons; right.
    apply list_elem_of_here.
  - intros Hnone. rewrite Hnone in Hhas.
    rewrite create_prefix_no_update, created_no_update by done.
    rewrite !SupplierPart_save_other by done.
    split; [|done]. repeat constructor.
  - intros v [raw Hraw] Hv Hnn. rewrite Hraw in Hhas.
    assert (dict_get "available" PyNone validated_data = v) as Hget
      by (unfold dict_get; by rewrite Hv).
    assert (applies_available self validated_data = true) as Happ
      by (unfold applies_available; rewrite Hget, Hhas; by destruct v).
    unfold create_prefix, created. rewrite Happ, Hget.
    rewrite update_available_quantity_available, update_available_quantity_stamp.
    split; [|done]. apply elem_of_cons; right. apply list_elem_of_here.
  - intros Hnone. rewrite Hnone in Hhas.
    rewrite create_prefix_no_update, created_no_update by done.
    split; [|done]. repeat constructor.
Qed.

(** The trace of [create]: the generic create on the data without
    ['available'], the availability update when it applies, and at most
    saves after them. *)
Lemma create_trace_shape (self : self) (validated_data : dict) :
  ∃ tail,
    trace (create generic_create now self validated_data)
    = (create_prefix self validated_data ++ tail)%list ∧
    Forall (λ c, is_Save c = true) tail.
Proof.
  rewrite create_eq.
  destruct (initial_data (base self)) as [[| | | | |initial]|];
    try (exists []; split; [by rewrite app_nil_r | constructor]).
  destruct (links_manufacturer initial).
  - eexists; split; [reflexivity|]. by repeat constructor.
  - exists []. split; [by rewrite app_nil_r | constructor].
Qed.

(** Without [has_available_quantity] the hooks do not depend on the value
    submitted under ['available']. *)
Lemma create_available_irrelevant (self : self) (validated_data : dict) :
  has_available_quantity self = false →
  create generic_create now self validated_data
  = create generic_create now self (delete "available" validated_data).
Proof.
  intros Hhas. rewrite !create_eq.
  rewrite !create_prefix_no_update, !created_no_update by done.
  by rewrite delete_delete_eq.
Qed.

Lemma update_no_update (self : self) (supplier_part : Instance) (data : dict) :
  has_available_quantity self = false →
  update generic_update now self supplier_part data
  = ([GenericUpdate (delete "available" data)],
     Some (generic_update supplier_part (delete "available" data))).
Proof.
  intros Hhas. rewrite update_eq. unfold applies_available.
  by rewrite Hhas, andb_false_r.
Qed.

(** C9: a SupplierPartSerializer built without the keyword [data], or with
    a [data] mapping that lacks ['available'], is constructed with
    [has_available_quantity] false.  Its [update] then makes the generic
    update on the data without ['available'] and nothing else, and returns
    its response; neither [update] nor [create] calls
    [update_available_quantity], and a value submitted under ['available']
    changes neither their calls nor their result. *)
Theorem C9_available_discarded (args : list PyVal) (kwargs : dict) :
  (kwargs !! "data" = None ∨
   ∃ payload, kwargs !! "data" = Some (PyDict payload) ∧ payload !! "available" = None) →
  ∃ self,
    __init__ args kwargs = Some self ∧
    has_available_quantity self = false ∧
    (∀ supplier_part data,
        update generic_update now self supplier_part data
        = ([GenericUpdate (delete "available" data)],
           Some (generic_update supplier_part (delete "available" data)))) ∧
    (∀ supplier_part data v,
        update generic_update now self supplier_part (<["available" := v]> data)
        = update generic_update now self supplier_part (delete "available" data)) ∧
    (∀ validated_data,
        Forall (λ c, is_UpdateAvailableQuantity c = false)
          (trace (create generic_create now self validated_data))) ∧
    (∀ validated_data v,
        create generic_create now self (<["available" := v]> validated_data)
        = create generic_create now self (delete "available" validated_data)).
Proof.
  intros Hdata.
  assert (∃ self, __init__ args kwargs = Some self ∧ has_available_quantity self = false)
    as (self & Hinit & Hhas).
  { destruct Hdata as [Hnone|(payload & Hsome & Hlacks)].
    - destruct (init_without_data args kwargs Hnone) as (self & ? & ? & _). eauto.
    - destruct (init_with_payload args kwargs payload Hsome) as (self & ? & Hhas & _).
      rewrite Hlacks in Hhas. eauto. }
  exists self. split; [done|]. split; [done|]. repeat split.
  - intros. by apply update_no_update.
  - intros. rewrite !update_no_update by done.
    by rewrite delete_insert_eq, delete_delete_eq.
  - intros vd. destruct (create_trace_shape self vd) as (tail & -> & Htail).
    rewrite create_prefix_no_update by done.
    constructor; [done|]. eapply Forall_impl; [exact Htail|].
    intros [] ?; done.
  - intros vd v.
    rewrite (create_available_irrelevant self (<["available" := v]> vd)) by done.
    by rewrite delete_insert_eq.
Qed.

(** C4: [create] hands the generic create path the validated data
    without ['available'], and whatever it calls afterwards is
    [update_available_quantity] or a save; [update] hands the generic
    update path the data without ['available'] and then, when the popped
    value is not [None] and [has_available_quantity] holds, calls
    [update_available_quantity] on the response of the generic update. *)
Theorem C4_available_popped (self : self) (supplier_part : Instance)
    (validated_data data : dict) :
  (∃ rest,
      trace (create generic_create now self validated_data)
      = GenericCreate (delete "available" validated_data) :: rest ∧
      Forall (λ c, is_UpdateAvailableQuantity c = true ∨ is_Save c = true) rest) ∧
  delete "available" validated_data !! "available" = None ∧
  delete "available" data !! "available" = None ∧
  update generic_update now self supplier_part data
  = (GenericUpdate (delete "available" data)
     :: (if applies_available self data
         then [UpdateAvailableQuantity (dict_get "available" PyNone data)]
         else []),
     Some (if applies_available self data
           then update_available_quantity now
                  (generic_update supplier_part (delete "available" data))
                  (dict_get "available" PyNone data)
           else generic_update supplier_part (delete "available" data))).
Proof.
  split; [|split; [apply lookup_delete_eq|split; [apply lookup_delete_eq|]]].
  - destruct (create_trace_shape self validated_data) as (tail & -> & Htail).
    unfold create_prefix. eexists; split; [reflexivity|].
    apply Forall_app; split.
    + destruct (applies_available self validated_data); repeat constructor.
    + eapply Forall_impl; [exact Htail|]. intros c Hc. by right.
  - rewrite update_eq. cbn zeta. by destruct (applies_available self data).
Qed.

(** If the generic update path writes only the attributes it is handed,
    the availability after [update] is the popped value when the update
    applies and the former availability otherwise. *)
Lemma update_available_frame (self : self) (supplier_part : Instance) (data : dict) :
  (∀ instance d key, d !! key = None → generic_update instance d !! key = instance !! key) →
  ∃ response,
    result (update generic_update now self supplier_part data) = Some response ∧
    response !! "available"
    = if applies_available self data
      then Some (dict_get "available" PyNone data)
      else supplier_part !! "available".
Proof.
  intros Hframe. rewrite update_eq. cbn zeta.
  destruct (applies_available self data); cbn [result snd];
    (eexists; split; [reflexivity|]).
  - apply update_available_quantity_available.
  - apply Hframe, lookup_delete_eq.
Qed.

(** C2 (amended): with raw input [initial], when the values under
    ['manufacturer'] and ['MPN'] are both truthy, the last call of
    [create] is a save with exactly these two keywords, and the
    SupplierPart returned is linked to the ManufacturerPart they name;
    otherwise (a key absent, or a value that is [None], empty or zero)
    [create] makes no save and returns the SupplierPart as created. *)
Theorem C2_secondary_save (self : self) (validated_data initial : dict) :
  initial_data (base self) = Some (PyDict initial) →
  let manufacturer := dict_get "manufacturer" PyNone initial in
  let MPN := dict_get "MPN" PyNone initial in
  (truthy manufacturer && truthy MPN = true →
     ∃ before supplier_part,
       trace (create generic_create now self validated_data)
       = (before ++ [Save {[ "manufacturer" := manufacturer; "MPN" := MPN ]}])%list ∧
       Forall (λ c, is_Save c = false) before ∧
       result (create generic_create now self validated_data) = Some supplier_part ∧
       supplier_part !! "manufacturer_part"
       = Some (PyDict {[ "manufacturer" := manufacturer; "MPN" := MPN ]})) ∧
  (truthy manufacturer && truthy MPN = false →
     Forall (λ c, is_Save c = false) (trace (create generic_create now self validated_data)) ∧
     result (create generic_create now self validated_data)
     = Some (created generic_create now self validated_data)) ∧
  (initial !! "manufacturer" = None ∨ initial !! "MPN" = None →
     truthy manufacturer && truthy MPN = false).
Proof.
  intros Hini manufacturer MPN.
  assert (Forall (λ c, is_Save c = false) (create_prefix self validated_data)) as Hprefix.
  { unfold create_prefix. destruct (applies_available self validated_data);
      repeat constructor. }
  rewrite create_eq, Hini.
  split; [|split].
  - intros Hlinks. change (links_manufacturer initial = true) in Hlinks.
    rewrite Hlinks. cbn [trace result fst snd].
    eexists _, _. split; [reflexivity|]. split; [exact Hprefix|].
    split; [reflexivity|]. apply SupplierPart_save_links.
  - intros Hlinks. change (links_manufacturer initial = false) in Hlinks.
    rewrite Hlinks. cbn [trace result fst snd]. done.
  - subst manufacturer MPN. unfold dict_get. intros [->| ->]; cbn; [done|].
    apply andb_false_r.
Qed.

End HookProperties.

(** *** The hooks on sample requests *)

Lemma C1_create_available_witness :
  ∃ self supplier_part,
    SupplierPartSerializer.__init__ [] {[ "data" := PyDict sample_payload ]} = Some self ∧
    result (SupplierPartHooks.create sample_generic_create sample_now self
              sample_validated_data) = Some supplier_part ∧
    supplier_part !! "available" = Some (PyInt 50) ∧
    supplier_part !! "availability_updated" = Some (PyDateTime sample_now).
Proof.
  destruct (C1_create_available sample_generic_create sample_now []
              {[ "data" := PyDict sample_payload ]} sample_payload
              sample_validated_data)
    as (self & supplier_part & Hinit & Hres & Hwith & _); [reflexivity|].
  exists self, supplier_part. split; [exact Hinit|]. split; [exact Hres|].
  destruct (Hwith (PyInt 50)) as (_ & Havail & Hstamp).
  - exists (PyStr "50"). reflexivity.
  - reflexivity.
  - discriminate.
  - split; [exact Havail | exact Hstamp].
Defined.

(** C2, as stated, fails on a raw input whose MPN is the empty string:
    both keys are there, yet [create] makes no save. *)
Lemma C2_empty_MPN_counterexample : ¬ secondary_save_rule.
Proof.
  intros Hrule.
  destruct (SupplierPartSerializer.__init__ [] {[ "data" := PyDict empty_MPN_payload ]})
    as [self|] eqn:Hinit; [|by vm_compute in Hinit].
  specialize (Hrule sample_generic_create sample_now self ∅ empty_MPN_payload
                (PyInt 3) "").
  vm_compute in Hinit. injection Hinit as <-.
  specialize (Hrule eq_refl eq_refl ltac:(discriminate) eq_refl).
  rewrite create_eq in Hrule. cbn in Hrule.
  apply list_elem_of_singleton in Hrule. discriminate Hrule.
Qed.

Lemma C2_secondary_save_witness :
  ∃ self before supplier_part,
    SupplierPartSerializer.__init__ [] {[ "data" := PyDict sample_payload ]} = Some self ∧
    trace (SupplierPartHooks.create sample_generic_create sample_now self
             sample_validated_data)
    = (before ++ [Save {[ "manufacturer" := PyInt 3; "MPN" := PyStr "ABC123" ]}])%list ∧
    Forall (λ c, is_Save c = false) before ∧
    result (SupplierPartHooks.create sample_generic_create sample_now self
              sample_validated_data) = Some supplier_part ∧
    supplier_part !! "manufacturer_part"
    = Some (PyDict {[ "manufacturer" := PyInt 3; "MPN" := PyStr "ABC123" ]}).
Proof.
  destruct (SupplierPartSerializer.__init__ [] {[ "data" := PyDict sample_payload ]})
    as [self|] eqn:Hinit; [|by vm_compute in Hinit].
  exists self.
  assert (initial_data (SupplierPartSerializer.base self) = Some (PyDict sample_payload))
    as Hini by (vm_compute in Hinit; injection Hinit as <-; reflexivity).
  destruct (C2_secondary_save sample_generic_create sample_now self
              sample_validated_data sample_payload Hini) as (Hlinks & _).
  destruct Hlinks as (before & supplier_part & Htrace & Hbefore & Hres & Hlink);
    [reflexivity|].
  exists before, supplier_part. split; [reflexivity|].
  split; [exact Htrace|]. split; [exact Hbefore|]. split; [exact Hres | exact Hlink].
Defined.

Lemma C9_available_discarded_witness :
  ∃ self,
    SupplierPartSerializer.__init__ [PyNone; PyDict sample_payload] ∅ = Some self ∧
    SupplierPartSerializer.has_available_quantity self = false ∧
    SupplierPartHooks.update sample_generic_update sample_now self
      {[ "available" := PyInt 5 ]} sample_validated_data
    = ([GenericUpdate (delete "available" sample_validated_data)],
       Some (sample_generic_update {[ "available" := PyInt 5 ]}
               (delete "available" sample_validated_data))).
Proof.
  destruct (C9_available_discarded sample_generic_create sample_generic_update
              sample_now [PyNone; PyDict sample_payload] ∅)
    as (self & Hinit & Hhas & Hupdate & _).
  - left. reflexivity.
  - exists self. split; [exact Hinit|]. split; [exact Hhas|]. apply Hupdate.
Defined.

(** ** Saving a Company with a remote image *)

Section CompanySave.
Import CompanySerializer.

Variable super_save : self → option self.

(** [save] after the generic save has left [company] in [self.instance]
    and an image was downloaded. *)
Lemma save_remote_image (self0 self1 : self) (company : Company) (remote_img : Image) :
  super_save self0 = Some self1 →
  instance self1 = Some company →
  remote_image_file self1 = Some remote_img →
  save super_save self0
  = match Image_save remote_img (format_or_PNG remote_img) with
    | Some buffer =>
        Some (Some (image_save company (image_filename company remote_img) buffer))
    | None => None
    end.
Proof.
  intros Hsuper Hinstance Himg. unfold save. rewrite Hsuper. cbn.
  rewrite Himg, Hinstance.
  by destruct (Image_save remote_img (format_or_PNG remote_img)).
Qed.

(** Without a downloaded image [save] returns the instance as the generic
    save left it. *)
Lemma save_no_remote_image (self0 self1 : self) :
  super_save self0 = Some self1 →
  remote_image_file self1 = None →
  save super_save self0 = Some (instance self1).
Proof.
  intros Hsuper Himg. unfold save. rewrite Hsuper. cbn. by rewrite Himg.
Qed.

(** C5 (amended): when the generic save succeeds, a remote image was
    fetched, the instance exists and the re-encoding of the image
    succeeds, [save] returns the company with a stored image whose name is
    [company_<pk>_image.<format>], the format lower-cased (PNG when the
    image reports none), and whose content is the bytes the re-encoding
    wrote. *)
Theorem C5_remote_image_stored (self0 self1 : self) (company : Company)
    (remote_img : Image) (buffer : list Byte.byte) :
  super_save self0 = Some self1 →
  instance self1 = Some company →
  remote_image_file self1 = Some remote_img →
  Image_save remote_img (format_or_PNG remote_img) = Some buffer →
  save super_save self0
  = Some (Some {| pk := pk company;
                  image := Some {| file_name :=
                                     "company_" +:+ pretty (pk company) +:+ "_image."
                                     +:+ lower (format_or_PNG remote_img);
                                   file_content := buffer |} |}).
Proof.
  intros Hsuper Hinstance Himg Hbuffer.
  rewrite (save_remote_image self0 self1 company remote_img) by done.
  by rewrite Hbuffer.
Qed.

(** C10: under the same conditions the stored content is the buffer the
    image wrote when saved in the format used, and so differs from the
    fetched bytes whenever the buffer does; the name ends in the
    lower-cased format used, which is the format the image reports when it
    reports a non-empty one; an image that reports no format is saved as
    PNG under a name ending in [.png]. *)
Theorem C10_reencoded_content (self0 self1 : self) (company : Company)
    (remote_img : Image) (buffer : list Byte.byte) :
  super_save self0 = Some self1 →
  instance self1 = Some company →
  remote_image_file self1 = Some remote_img →
  Image_save remote_img (format_or_PNG remote_img) = Some buffer →
  ∃ stored file,
    save super_save self0 = Some (Some stored) ∧
    image stored = Some file ∧
    file_content file = buffer ∧
    (buffer ≠ fetched_bytes remote_img → file_content file ≠ fetched_bytes remote_img) ∧
    file_name file
    = "company_" +:+ pretty (pk company) +:+ "_image."
      +:+ lower (format_or_PNG remote_img) ∧
    (∀ f, format remote_img = Some f → f ≠ "" → format_or_PNG remote_img = f) ∧
    (format remote_img = None →
       Image_save remote_img "PNG" = Some buffer ∧
       file_name file = "company_" +:+ pretty (pk company) +:+ "_image.png").
Proof.
  intros Hsuper Hinstance Himg Hbuffer.
  rewrite (save_remote_image self0 self1 company remote_img) by done.
  rewrite Hbuffer. eexists _, _. split; [reflexivity|]. split; [reflexivity|].
  cbn [file_content file_name]. split; [done|]. split; [done|].
  split; [done|]. split.
  - intros f Hf Hne. unfold format_or_PNG. rewrite Hf.
    by destruct (String.eqb_spec f "").
  - intros Hnone. unfold image_filename, format_or_PNG in *.
    rewrite Hnone in *. done.
Qed.

End CompanySave.

Example lower_JPEG : CompanySerializer.lower "JPEG" = "jpeg".
Proof. reflexivity. Qed.

Example image_filename_negative_pk :
  image_filename {| CompanySerializer.pk := -12; CompanySerializer.image := None |}
    sample_no_format
  = "company_-12_image.png".
Proof. reflexivity. Qed.

(** When the encoder raises, [save] raises and stores nothing. *)
Lemma save_encoder_raises (super_save : CompanySerializer.self → option CompanySerializer.self)
    (self0 self1 : CompanySerializer.self) (company : CompanySerializer.Company)
    (remote_img : CompanySerializer.Image) :
  super_save self0 = Some self1 →
  CompanySerializer.instance self1 = Some company →
  CompanySerializer.remote_image_file self1 = Some remote_img →
  CompanySerializer.Image_save remote_img (CompanySerializer.format_or_PNG remote_img) = None →
  CompanySerializer.save super_save self0 = None.
Proof.
  intros Hsuper Hinstance Himg Hraise.
  rewrite (save_remote_image super_save self0 self1 company remote_img) by done.
  by rewrite Hraise.
Qed.

(** C5, as stated, fails on a JPEG download whose re-encoding writes
    other bytes than those fetched: the stored content is the re-encoded
    buffer. *)
Lemma C5_reencoded_counterexample : ¬ remote_image_rule.
Proof.
  intros Hrule.
  destruct (Hrule Some (sample_company_self sample_jpeg) (sample_company_self sample_jpeg)
              sample_company sample_jpeg eq_refl eq_refl eq_refl)
    as (stored & Hsave & Himage).
  vm_compute in Hsave. injection Hsave as <-.
  vm_compute in Himage. discriminate Himage.
Qed.

Lemma C5_remote_image_stored_witness :
  CompanySerializer.save Some (sample_company_self sample_jpeg)
  = Some (Some {| CompanySerializer.pk := 7;
                  CompanySerializer.image :=
                    Some {| CompanySerializer.file_name := "company_7_image.jpeg";
                            CompanySerializer.file_content :=
                              [Byte.xff; Byte.xd8; Byte.x01] |} |}).
Proof.
  apply (C5_remote_image_stored Some (sample_company_self sample_jpeg)
           (sample_company_self sample_jpeg) sample_company sample_jpeg
           [Byte.xff; Byte.xd8; Byte.x01]); reflexivity.
Defined.

Lemma C10_reencoded_content_witness :
  ∃ stored file,
    CompanySerializer.save Some (sample_company_self sample_no_format)
    = Some (Some stored) ∧
    CompanySerializer.image stored = Some file ∧
    CompanySerializer.file_content file = [Byte.x89; Byte.x50; Byte.x01] ∧
    CompanySerializer.file_content file ≠ CompanySerializer.fetched_bytes sample_no_format ∧
    CompanySerializer.file_name file = "company_7_image.png".
Proof.
  destruct (C10_reencoded_content Some (sample_company_self sample_no_format)
              (sample_company_self sample_no_format) sample_company sample_no_format
              [Byte.x89; Byte.x50; Byte.x01])
    as (stored & file & Hsave & Himage & Hcontent & Hdiffers & _ & _ & Hpng);
    [reflexivity | reflexivity | reflexivity | reflexivity |].
  exists stored, file. split; [exact Hsave|]. split; [exact Himage|].
  split; [exact Hcontent|]. split.
  - apply Hdiffers. discriminate.
  - apply Hpng. reflexivity.
Defined.

(** ** Currency and reference fields *)

Section FieldValidation.
Import Validation.

Variable currency_code_mappings : list (string * string).
Variable currency_code_default : string.
Variable Company_objects : gmap Z CompanyRow.

Lemma errors_single (name : string) (f : FieldDecl) (payload : dict) :
  errors [(name, f)] payload !! name
  = match validate_field f (payload !! name) with
    | inl e => Some e
    | inr _ => None
    end.
Proof.
  unfold errors. cbn.
  destruct (validate_field f (payload !! name)); cbn; [|done].
  apply lookup_insert_eq.
Qed.

(** The constrained queryset holds exactly the companies with the flag. *)
Lemma Company_objects_filter_lookup (flag : CompanyRow → bool) (key : Z) (company : CompanyRow) :
  Company_objects !! key = Some company →
  Company_objects_filter Company_objects flag !! key
  = if flag company then Some company else None.
Proof.
  intros Hrow. unfold Company_objects_filter.
  destruct (flag company) eqn:Hflag.
  - apply map_lookup_filter_Some. done.
  - apply map_lookup_filter_None. right. intros c Hc. cbn.
    rewrite Hrow in Hc. injection Hc as <-. by rewrite Hflag.
Qed.

(** C6: a Company payload whose ['currency'] is a code outside the
    configured mapping gets the error [invalid_choice] under the key
    ['currency'], and one inside the mapping gets no error there and is
    the validated value; likewise for ['price_currency'] of a
    SupplierPriceBreak payload. *)
Theorem C6_currency_choice (code code' : string) (payload payload' : dict) :
  payload !! "currency" = Some (PyStr code) →
  payload' !! "price_currency" = Some (PyStr code') →
  (code ∉ currency_code_mappings.*1 →
     errors (CompanySerializer_declared currency_code_mappings) payload !! "currency"
     = Some invalid_choice) ∧
  (code ∈ currency_code_mappings.*1 →
     errors (CompanySerializer_declared currency_code_mappings) payload !! "currency"
     = None ∧
     validate_field (CompanySerializer_currency currency_code_mappings)
       (payload !! "currency") = inr (Some (PyStr code))) ∧
  (code' ∉ currency_code_mappings.*1 →
     errors (SupplierPriceBreakSerializer_declared currency_code_mappings
               currency_code_default) payload' !! "price_currency"
     = Some invalid_choice) ∧
  (code' ∈ currency_code_mappings.*1 →
     errors (SupplierPriceBreakSerializer_declared currency_code_mappings
               currency_code_default) payload' !! "price_currency"
     = None ∧
     validate_field (SupplierPriceBreakSerializer_price_currency currency_code_mappings
                       currency_code_default)
       (payload' !! "price_currency") = inr (Some (PyStr code'))).
Proof.
  intros Hc Hp.
  unfold CompanySerializer_declared, SupplierPriceBreakSerializer_declared.
  rewrite !errors_single, Hc, Hp. cbn.
  split; [|split; [|split]]; intros Hin; case_bool_decide; done.
Qed.

(** C7: a SupplierPart payload whose ['supplier'] is the key of a Company
    without the supplier flag gets the error [does_not_exist] under
    ['supplier'], and a ManufacturerPart payload whose ['manufacturer'] is
    the key of a Company without the manufacturer flag gets it under
    ['manufacturer']; with the flag set there is no error under the key. *)
Theorem C7_role_constrained (key : Z) (company : CompanyRow) (payload payload' : dict) :
  Company_objects !! key = Some company →
  payload !! "supplier" = Some (PyInt key) →
  payload' !! "manufacturer" = Some (PyInt key) →
  errors (SupplierPartSerializer_declared Company_objects) payload !! "supplier"
  = (if is_supplier company then None else Some does_not_exist) ∧
  errors (ManufacturerPartSerializer_declared Company_objects) payload' !! "manufacturer"
  = (if is_manufacturer company then None else Some does_not_exist).
Proof.
  intros Hrow Hs Hm.
  unfold SupplierPartSerializer_declared, ManufacturerPartSerializer_declared.
  rewrite !errors_single, Hs, Hm. cbn.
  rewrite !(Company_objects_filter_lookup _ key company Hrow).
  by destruct (is_supplier company), (is_manufacturer company).
Qed.

End FieldValidation.

Lemma C6_currency_choice_witness :
  Validation.errors (Validation.CompanySerializer_declared sample_currencies)
    {[ "name" := PyStr "ACME"; "currency" := PyStr "XYZ" ]} !! "currency"
  = Some Validation.invalid_choice ∧
  Validation.errors (Validation.SupplierPriceBreakSerializer_declared sample_currencies "USD")
    {[ "quantity" := PyInt 10; "price_currency" := PyStr "EUR" ]} !! "price_currency"
  = None.
Proof.
  destruct (C6_currency_choice sample_currencies "USD" "XYZ" "EUR"
              {[ "name" := PyStr "ACME"; "currency" := PyStr "XYZ" ]}
              {[ "quantity" := PyInt 10; "price_currency" := PyStr "EUR" ]})
    as (Hreject & _ & _ & Haccept); [reflexivity | reflexivity |].
  split.
  - apply Hreject. compute_done.
  - apply Haccept. compute_done.
Defined.

Lemma C7_role_constrained_witness :
  Validation.errors (Validation.SupplierPartSerializer_declared sample_companies)
    {[ "SKU" := PyStr "R-10K"; "supplier" := PyInt 2 ]} !! "supplier"
  = Some Validation.does_not_exist ∧
  Validation.errors (Validation.ManufacturerPartSerializer_declared sample_companies)
    {[ "MPN" := PyStr "ABC123"; "manufacturer" := PyInt 2 ]} !! "manufacturer"
  = None.
Proof.
  apply (C7_role_constrained sample_companies 2
           {| Validation.is_customer := false; Validation.is_manufacturer := true;
              Validation.is_supplier := false |}
           {[ "SKU" := PyStr "R-10K"; "supplier" := PyInt 2 ]}
           {[ "MPN" := PyStr "ABC123"; "manufacturer" := PyInt 2 ]}); reflexivity.
Defined.

(** *** A serializer given its payload positionally *)

(** Built as [SupplierPartSerializer(instance, payload)], the serializer
    does not see the key ['available']: [update] leaves the availability
    of the SupplierPart as it was. *)
Example update_positional_payload :
  (λ self, snd (SupplierPartHooks.update sample_generic_update sample_now self
                  {[ "available" := PyInt 5 ]} sample_validated_data)
           ≫= (.!! "available"))
    <$> SupplierPartSerializer.__init__ [PyNone; PyDict sample_payload] ∅
  = Some (Some (PyInt 5)).
Proof. by vm_compute. Qed.

Example update_keyword_payload :
  (λ self, snd (SupplierPartHooks.update sample_generic_update sample_now self
                  {[ "available" := PyInt 5 ]} sample_validated_data)
           ≫= (.!! "available"))
    <$> SupplierPartSerializer.__init__ [PyNone] {[ "data" := PyDict sample_payload ]}
  = Some (Some (PyInt 50)).
Proof. by vm_compute. Qed.

(** * Further properties of the constructors *)

(** Removing names keeps exactly the other fields. *)
Lemma has_field_without (n : string) (names : list string) (fs : fieldset) :
  has_field n (without names fs)
  = has_field n fs && negb (existsb (String.eqb n) names).
Proof.
  unfold has_field, without.
  induction fs as [|[k f] fs IH]; [done|].
  cbn [List.filter existsb fst].
  destruct (existsb (String.eqb k) names) eqn:Hk; cbn [negb existsb fst].
  - rewrite IH. destruct (String.eqb_spec n k) as [->|Hne]; [|done].
    rewrite Hk. cbn. by rewrite andb_false_r.
  - rewrite IH. destruct (String.eqb_spec n k) as [->|Hne]; [|done].
    rewrite Hk. cbn. done.
Qed.

Lemma fieldset_depth_without (names : list string) (fs : fieldset) :
  (fieldset_depth (without names fs) ≤ fieldset_depth fs)%nat.
Proof.
  unfold fieldset_depth, without.
  induction fs as [|[k f] fs IH]; [done|].
  cbn [List.filter foldr]. destruct (negb _); cbn [foldr]; lia.
Qed.

(** No optional name among the removed ones means nothing removed under
    that name. *)
Lemma not_removed (n : string) (optional removed : list string) :
  n ∉ optional → removed ⊆ optional → existsb (String.eqb n) removed = false.
Proof.
  intros Hn Hsub. apply not_true_is_false. intros Hex.
  apply existsb_exists in Hex as (k & Hk & Heq).
  apply String.eqb_eq in Heq as <-.
  apply Hn, Hsub. by apply list_elem_of_In.
Qed.

Lemma ManufacturerPart_fields_eq (args : list PyVal) (kwargs : dict) (s : Serializer) :
  ManufacturerPartSerializer.__init__ args kwargs = Some s →
  fields s = without (ManufacturerPart_removed kwargs) ManufacturerPartSerializer.Meta_fields.
Proof.
  unfold ManufacturerPartSerializer.__init__, ManufacturerPart_removed, dict_pop,
    super___init__.
  rewrite !lookup_delete_ne by done. rewrite !is_True_default.
  generalize (BaseSerializer_initial_data args
    (delete "pretty" (delete "manufacturer_detail" (delete "part_detail" kwargs)))).
  intros d.
  destruct (flag_is_True kwargs "part_detail" true),
    (flag_is_True kwargs "manufacturer_detail" true),
    (flag_is_True kwargs "pretty" false);
    vm_compute; by intros [= <-].
Qed.

Lemma ManufacturerPartParameter_fields_eq (args : list PyVal) (kwargs : dict)
    (s : Serializer) (meta : fieldset) :
  ManufacturerPartParameterSerializer.Meta_fields = Some meta →
  ManufacturerPartParameterSerializer.__init__ args kwargs = Some s →
  fields s = without (ManufacturerPartParameter_removed kwargs) meta.
Proof.
  intros Hmeta. vm_compute in Hmeta. injection Hmeta as <-.
  unfold ManufacturerPartParameterSerializer.__init__, ManufacturerPartParameter_removed,
    dict_pop, super___init__.
  rewrite truthy_default.
  generalize (BaseSerializer_initial_data args (delete "manufacturer_part_detail" kwargs)).
  intros d.
  destruct (flag_truthy kwargs "manufacturer_part_detail" false);
    vm_compute; by intros [= <-].
Qed.

Lemma SupplierPart_fields_eq (args : list PyVal) (kwargs : dict)
    (s : SupplierPartSerializer.self) (meta : fieldset) :
  SupplierPartSerializer.Meta_fields = Some meta →
  SupplierPartSerializer.__init__ args kwargs = Some s →
  fields (SupplierPartSerializer.base s) = without (SupplierPart_removed kwargs) meta.
Proof.
  intros Hmeta. vm_compute in Hmeta. injection Hmeta as <-.
  unfold SupplierPartSerializer.__init__, SupplierPart_removed.
  destruct (py_in "available" (dict_get "data" (PyDict ∅) kwargs)) as [h|]; [|done].
  unfold dict_pop, super___init__, brief_mode.
  rewrite !lookup_delete_ne by done.
  rewrite truthy_default, !is_True_default.
  generalize (BaseSerializer_initial_data args
    (delete "pretty" (delete "manufacturer_detail" (delete "supplier_detail"
      (delete "part_detail" (delete "brief" kwargs)))))).
  intros d.
  destruct (flag_truthy kwargs "brief" false); cbn [negb];
    destruct (flag_is_True kwargs "part_detail" _),
      (flag_is_True kwargs "supplier_detail" _),
      (flag_is_True kwargs "manufacturer_detail" _),
      (flag_is_True kwargs "pretty" false);
    vm_compute; by intros [= <-].
Qed.

Lemma SupplierPriceBreak_fields_eq (args : list PyVal) (kwargs : dict)
    (s : Serializer) (meta : fieldset) :
  SupplierPriceBreakSerializer.Meta_fields = Some meta →
  SupplierPriceBreakSerializer.__init__ args kwargs = Some s →
  fields s = without (SupplierPriceBreak_removed kwargs) meta.
Proof.
  intros Hmeta. vm_compute in Hmeta. injection Hmeta as <-.
  unfold SupplierPriceBreakSerializer.__init__, SupplierPriceBreak_removed,
    dict_pop, super___init__.
  rewrite !lookup_delete_ne by done. rewrite !truthy_default.
  generalize (BaseSerializer_initial_data args
    (delete "part_detail" (delete "supplier_detail" kwargs))).
  intros d.
  destruct (flag_truthy kwargs "supplier_detail" false),
    (flag_truthy kwargs "part_detail" false);
    vm_compute; by intros [= <-].
Qed.

Lemma SupplierPart_removed_optional (kwargs : dict) :
  SupplierPart_removed kwargs ⊆ nested_detail_names.
Proof.
  unfold SupplierPart_removed, removed_unless, nested_detail_names. cbn zeta.
  destruct (flag_is_True kwargs "part_detail" _),
    (flag_is_True kwargs "supplier_detail" _),
    (flag_is_True kwargs "manufacturer_detail" _),
    (flag_is_True kwargs "pretty" false); compute_done.
Qed.

(** X1: the active field set of a SupplierPartSerializer is [Meta.fields],
    in its order, without the optional fields its flags remove; a field
    that is not one of the five optional ones is never removed, whatever
    the keywords. *)
Theorem SupplierPart_field_set (args : list PyVal) (kwargs : dict)
    (s : SupplierPartSerializer.self) (meta : fieldset) :
  SupplierPartSerializer.Meta_fields = Some meta →
  SupplierPartSerializer.__init__ args kwargs = Some s →
  fields (SupplierPartSerializer.base s) = without (SupplierPart_removed kwargs) meta ∧
  ∀ n, n ∉ nested_detail_names →
       has_field n (fields (SupplierPartSerializer.base s)) = has_field n meta.
Proof.
  intros Hmeta Hs.
  rewrite (SupplierPart_fields_eq args kwargs s meta Hmeta Hs).
  split; [done|]. intros n Hn.
  rewrite has_field_without.
  rewrite (not_removed n nested_detail_names) by
    (done || apply SupplierPart_removed_optional).
  apply andb_true_r.
Qed.

Lemma SupplierPart_field_set_witness :
  ∃ s meta,
    SupplierPartSerializer.__init__ []
      {[ "brief" := PyBool true; "supplier_detail" := PyBool true ]} = Some s ∧
    fields (SupplierPartSerializer.base s)
    = without ["part_detail"; "manufacturer_detail"; "manufacturer_part_detail";
               "pretty_name"] meta ∧
    has_field "SKU" (fields (SupplierPartSerializer.base s)) = true.
Proof.
  destruct (SupplierPartSerializer.__init__ []
              {[ "brief" := PyBool true; "supplier_detail" := PyBool true ]})
    as [s|] eqn:Hs; [|by vm_compute in Hs].
  destruct SupplierPartSerializer.Meta_fields as [meta|] eqn:Hmeta;
    [|by vm_compute in Hmeta].
  destruct (SupplierPart_field_set []
              {[ "brief" := PyBool true; "supplier_detail" := PyBool true ]}
              s meta Hmeta Hs) as [Heq Hkept].
  exists s, meta. split; [reflexivity|]. split; [exact Heq|].
  rewrite Hkept by compute_done.
  vm_compute in Hmeta. injection Hmeta as <-. reflexivity.
Defined.


(** X3: whatever the keywords, a constructed serializer embeds serializers
    at most two levels deep; a ManufacturerPartSerializer and a
    SupplierPriceBreakSerializer embed at most one level. *)
Theorem embedding_depth_bounded (args : list PyVal) (kwargs : dict) :
  (∃ s, ManufacturerPartSerializer.__init__ args kwargs = Some s ∧
        (fieldset_depth (fields s) ≤ 1)%nat) ∧
  (∃ s, ManufacturerPartParameterSerializer.__init__ args kwargs = Some s ∧
        (fieldset_depth (fields s) ≤ 2)%nat) ∧
  (∃ s, SupplierPriceBreakSerializer.__init__ args kwargs = Some s ∧
        (fieldset_depth (fields s) ≤ 1)%nat) ∧
  match SupplierPartSerializer.__init__ args kwargs with
  | Some s => (fieldset_depth (fields (SupplierPartSerializer.base s)) ≤ 2)%nat
  | None => py_in "available" (dict_get "data" (PyDict ∅) kwargs) = None
  end.
Proof.
  split; [|split; [|split]].
  - destruct (ManufacturerPartSerializer_toggles args kwargs) as (s & Hs & _).
    exists s. split; [exact Hs|].
    rewrite (ManufacturerPart_fields_eq args kwargs s Hs).
    etrans; [apply fieldset_depth_without|]. by vm_compute.
  - destruct ManufacturerPartParameterSerializer.Meta_fields as [meta|] eqn:Hmeta;
      [|by vm_compute in Hmeta].
    destruct (ManufacturerPartParameterSerializer_toggles args kwargs) as (s & Hs & _).
    exists s. split; [exact Hs|].
    rewrite (ManufacturerPartParameter_fields_eq args kwargs s meta Hmeta Hs).
    etrans; [apply fieldset_depth_without|].
    vm_compute in Hmeta. injection Hmeta as <-. by vm_compute.
  - destruct SupplierPriceBreakSerializer.Meta_fields as [meta|] eqn:Hmeta;
      [|by vm_compute in Hmeta].
    destruct (SupplierPriceBreakSerializer_toggles args kwargs) as (s & Hs & _).
    exists s. split; [exact Hs|].
    rewrite (SupplierPriceBreak_fields_eq args kwargs s meta Hmeta Hs).
    etrans; [apply fieldset_depth_without|].
    vm_compute in Hmeta. injection Hmeta as <-. by vm_compute.
  - pose proof (SupplierPartSerializer_toggles args kwargs) as Htog.
    destruct (SupplierPartSerializer.__init__ args kwargs) as [s|] eqn:Hs; [|exact Htog].
    destruct SupplierPartSerializer.Meta_fields as [meta|] eqn:Hmeta;
      [|by vm_compute in Hmeta].
    rewrite (SupplierPart_fields_eq args kwargs s meta Hmeta Hs).
    etrans; [apply fieldset_depth_without|].
    vm_compute in Hmeta. injection Hmeta as <-. by vm_compute.
Qed.

(** X4: a flag value that is truthy without being [True] (such as [1])
    counts as off for ManufacturerPartSerializer, whose test is
    [is not True], and as on for SupplierPriceBreakSerializer, whose test
    is [not]: the first removes [part_detail], the second keeps it. *)
Theorem truthy_flag_not_True (args : list PyVal) (kwargs : dict) (v : PyVal) :
  kwargs !! "part_detail" = Some v →
  truthy v = true →
  is_True v = false →
  (∃ s, ManufacturerPartSerializer.__init__ args kwargs = Some s ∧
        has_field "part_detail" (fields s) = false) ∧
  (∃ s, SupplierPriceBreakSerializer.__init__ args kwargs = Some s ∧
        has_field "part_detail" (fields s) = true).
Proof.
  intros Hv Htruthy Hnot. split.
  - destruct (ManufacturerPartSerializer_toggles args kwargs) as (s & Hs & Hpart & _).
    exists s. split; [exact Hs|]. rewrite Hpart. unfold flag_is_True. by rewrite Hv.
  - destruct (SupplierPriceBreakSerializer_toggles args kwargs) as (s & Hs & _ & Hpart).
    exists s. split; [exact Hs|]. rewrite Hpart. unfold flag_truthy. by rewrite Hv.
Qed.

Lemma truthy_flag_not_True_witness :
  (∃ s, ManufacturerPartSerializer.__init__ [] {[ "part_detail" := PyInt 1 ]} = Some s ∧
        has_field "part_detail" (fields s) = false) ∧
  (∃ s, SupplierPriceBreakSerializer.__init__ [] {[ "part_detail" := PyInt 1 ]} = Some s ∧
        has_field "part_detail" (fields s) = true).
Proof.
  apply (truthy_flag_not_True [] {[ "part_detail" := PyInt 1 ]} (PyInt 1)); reflexivity.
Defined.

(** * Further properties of the hooks of SupplierPartSerializer *)

Section HookEdges.
Import SupplierPartSerializer SupplierPartHooks.

Variable generic_create : dict → Instance.
Variable generic_update : Instance → dict → Instance.
Variable now : Z.

Lemma applies_available_None (self : self) (data : dict) :
  applies_available self (<["available" := PyNone]> data) = false.
Proof. unfold applies_available, dict_get. by rewrite lookup_insert_eq. Qed.

Lemma applies_available_delete (self : self) (data : dict) :
  applies_available self (delete "available" data) = false.
Proof. unfold applies_available, dict_get. by rewrite lookup_delete_eq. Qed.

Lemma create_not_applied (self : self) (validated_data : dict) :
  applies_available self validated_data = false →
  create generic_create now self validated_data
  = match initial_data (base self) with
    | Some (PyDict initial) =>
        let supplier_part := generic_create (delete "available" validated_data) in
        if links_manufacturer initial
        then ([GenericCreate (delete "available" validated_data); Save (save_kwargs initial)],
              Some (SupplierPart_save supplier_part (save_kwargs initial)))
        else ([GenericCreate (delete "available" validated_data)], Some supplier_part)
    | _ => ([GenericCreate (delete "available" validated_data)], None)
    end.
Proof.
  intros Happ. rewrite create_eq. unfold create_prefix, created. by rewrite Happ.
Qed.


(** X6: a [None] submitted under ['available'] is treated like a missing
    key, also when the serializer saw ['available'] in its payload:
    [update] and [create] make the same calls and return the same result
    as on the data without the key. *)
Theorem available_None_as_missing (self : self) (supplier_part : Instance)
    (data validated_data : dict) :
  update generic_update now self supplier_part (<["available" := PyNone]> data)
  = update generic_update now self supplier_part (delete "available" data) ∧
  create generic_create now self (<["available" := PyNone]> validated_data)
  = create generic_create now self (delete "available" validated_data).
Proof.
  split.
  - rewrite !update_eq. cbn zeta.
    rewrite applies_available_None, applies_available_delete.
    by rewrite delete_insert_eq, delete_delete_eq.
  - rewrite !create_not_applied
      by (apply applies_available_None || apply applies_available_delete).
    by rewrite delete_insert_eq, delete_delete_eq.
Qed.

(** X8: [create] makes its calls in a fixed order, each at most once:
    the generic create, then possibly the availability update with the
    popped value, then possibly one save. *)
Theorem create_call_order (self : self) (validated_data : dict) :
  ∃ updates saves,
    trace (create generic_create now self validated_data)
    = (GenericCreate (delete "available" validated_data) :: updates ++ saves)%list ∧
    (updates = [] ∨
     updates = [UpdateAvailableQuantity (dict_get "available" PyNone validated_data)]) ∧
    (saves = [] ∨ ∃ kwargs, saves = [Save kwargs]).
Proof.
  rewrite create_eq. unfold create_prefix.
  exists (if applies_available self validated_data
          then [UpdateAvailableQuantity (dict_get "available" PyNone validated_data)]
          else []).
  destruct (initial_data (base self)) as [[| | | | |initial]|];
    try (exists []; split; [by rewrite app_nil_r|];
         split; [destruct (applies_available self validated_data); auto | by left]).
  destruct (links_manufacturer initial).
  - exists [Save (save_kwargs initial)]. split; [done|].
    split; [destruct (applies_available self validated_data); auto | right; eauto].
  - exists []. split; [by rewrite app_nil_r|].
    split; [destruct (applies_available self validated_data); auto | by left].
Qed.

End HookEdges.


(** * Further properties of saving a Company *)

Lemma length_append (s t : string) :
  String.length (s +:+ t) = (String.length s + String.length t)%nat.
Proof. induction s as [|c s IH]; simpl; [done | by rewrite IH]. Qed.

Lemma append_inj_r (s1 s2 t : string) : s1 +:+ t = s2 +:+ t → s1 = s2.
Proof.
  revert s2. induction s1 as [|c s1 IH]; intros [|c' s2] Heq; simpl in Heq.
  - done.
  - apply (f_equal String.length) in Heq.
    rewrite ?length_append in Heq. simpl in Heq. rewrite ?length_append in Heq. lia.
  - apply (f_equal String.length) in Heq.
    rewrite ?length_append in Heq. simpl in Heq. rewrite ?length_append in Heq. lia.
  - injection Heq as -> Heq. f_equal. by apply IH.
Qed.

Lemma lower_nonempty (s : string) : s ≠ "" → CompanySerializer.lower s ≠ "".
Proof. by destruct s. Qed.

Lemma format_or_PNG_nonempty (remote_img : CompanySerializer.Image) :
  CompanySerializer.format_or_PNG remote_img ≠ "".
Proof.
  unfold CompanySerializer.format_or_PNG.
  destruct (CompanySerializer.format remote_img) as [f|]; [|done].
  by destruct (String.eqb_spec f "").
Qed.

Section CompanySaveEdges.
Import CompanySerializer.

Variable super_save : self → option self.

(** X9: whatever [save] returns is the instance the generic save left on
    the serializer, with its key unchanged; without a downloaded image it
    is returned untouched, and with one only its image is replaced, by the
    re-encoded buffer under the name built from the key and the format. *)
Theorem save_returns_instance (self0 : self) (stored : Company) :
  save super_save self0 = Some (Some stored) →
  ∃ self1 company,
    super_save self0 = Some self1 ∧
    instance self1 = Some company ∧
    pk stored = pk company ∧
    (remote_image_file self1 = None → stored = company) ∧
    (∀ remote_img, remote_image_file self1 = Some remote_img →
       ∃ buffer,
         Image_save remote_img (format_or_PNG remote_img) = Some buffer ∧
         image stored = Some {| file_name := image_filename company remote_img;
                                file_content := buffer |}).
Proof.
  unfold save. destruct (super_save self0) as [self1|]; [|done]. cbn.
  destruct (remote_image_file self1) as [remote_img|] eqn:Himg;
    destruct (instance self1) as [company|] eqn:Hinstance; try done.
  - destruct (Image_save remote_img (format_or_PNG remote_img)) as [buffer|] eqn:Hbuffer;
      [|done].
    cbn. intros [= <-]. exists self1, company.
    split; [done|]. split; [done|]. split; [done|]. split; [by rewrite Himg|].
    rewrite Himg. intros ? [= <-]. exists buffer. by rewrite Hbuffer.
  - intros [= <-]. exists self1, company.
    split; [done|]. split; [done|]. split; [done|]. split; [done|].
    rewrite Himg. by intros ? [=].
Qed.


End CompanySaveEdges.

Lemma save_returns_instance_witness :
  ∃ self1 company,
    Some (sample_company_self sample_jpeg) = Some self1 ∧
    CompanySerializer.instance self1 = Some company ∧
    CompanySerializer.pk sample_stored = CompanySerializer.pk company ∧
    (CompanySerializer.remote_image_file self1 = None → sample_stored = company) ∧
    (∀ remote_img, CompanySerializer.remote_image_file self1 = Some remote_img →
       ∃ buffer,
         CompanySerializer.Image_save remote_img
           (CompanySerializer.format_or_PNG remote_img) = Some buffer ∧
         CompanySerializer.image sample_stored
         = Some {| CompanySerializer.file_name := image_filename company remote_img;
                   CompanySerializer.file_content := buffer |}).
Proof.
  apply (save_returns_instance Some (sample_company_self sample_jpeg) sample_stored).
  reflexivity.
Defined.


(** X11: the stored name tells companies apart: for images saved in the
    same format, companies with different keys get different names. *)
Theorem image_filename_distinct (c1 c2 : CompanySerializer.Company)
    (img1 img2 : CompanySerializer.Image) :
  CompanySerializer.lower (CompanySerializer.format_or_PNG img1)
  = CompanySerializer.lower (CompanySerializer.format_or_PNG img2) →
  CompanySerializer.pk c1 ≠ CompanySerializer.pk c2 →
  image_filename c1 img1 ≠ image_filename c2 img2.
Proof.
  intros Hfmt Hpk Heq. apply Hpk. unfold image_filename in Heq.
  rewrite Hfmt in Heq.
  apply (inj (String.app "company_")) in Heq.
  apply append_inj_r in Heq.
  by apply (inj pretty) in Heq.
Qed.

Lemma image_filename_distinct_witness :
  image_filename sample_company sample_no_format
  ≠ image_filename {| CompanySerializer.pk := 70; CompanySerializer.image := None |}
      sample_no_format.
Proof.
  apply (image_filename_distinct sample_company
           {| CompanySerializer.pk := 70; CompanySerializer.image := None |}
           sample_no_format sample_no_format).
  - reflexivity.
  - discriminate.
Defined.

(** X12: the format handed to the encoder is never empty: an image that
    reports the empty string as its format is saved as PNG, like one that
    reports none, and the stored name never ends in a bare dot. *)
Theorem image_format_never_empty (company : CompanySerializer.Company)
    (remote_img : CompanySerializer.Image) :
  CompanySerializer.format_or_PNG remote_img ≠ "" ∧
  (CompanySerializer.format remote_img = Some "" ∨
   CompanySerializer.format remote_img = None →
   CompanySerializer.format_or_PNG remote_img = "PNG" ∧
   image_filename company remote_img
   = "company_" +:+ pretty (CompanySerializer.pk company) +:+ "_image.png") ∧
  image_filename company remote_img
  ≠ "company_" +:+ pretty (CompanySerializer.pk company) +:+ "_image.".
Proof.
  split; [apply format_or_PNG_nonempty|]. split.
  - unfold image_filename, CompanySerializer.format_or_PNG.
    by intros [-> | ->].
  - unfold image_filename. intros Heq.
    apply (inj (String.app "company_")) in Heq.
    apply (inj (String.app (pretty (CompanySerializer.pk company)))) in Heq.
    apply (inj (String.app "_image.")) in Heq.
    by apply (lower_nonempty _ (format_or_PNG_nonempty remote_img)).
Qed.

(** * The constructor of SupplierPartSerializer on its payload *)


